(** * The gateway of the two-tier deployment: [gateway/src/gateway.js]

    A shallow embedding of the Express application defined in
    [gateway.js]: the request forwarder [proxyRequest], the local
    [/health] handler and the routing table, followed by the properties
    the specification states about them.

    The handlers are effectful JavaScript: they mutate the response
    object, await an outbound [axios] call and catch what it throws.  They
    are embedded in a state-and-exception monad over a [World] holding the
    response object and the list of outbound calls issued so far.  Console
    output is not part of the state: no statement below observes it.

    The back end the gateway forwards to is embedded next to it: the
    product routes with their validation middleware and error handler,
    and the health, not-found and error handlers of its entry point.  Its
    handlers run on the same response object; what they take from Joi,
    Mongoose and the language ([parseInt]) comes in as parameters. *)

From Stdlib Require Import ZArith QArith Qround Lqa String Ascii List Bool Lia.
From stdpp Require Import base option gmap strings pretty list fin_maps.

Local Set Warnings "-register-all".
Local Open Scope string_scope.
Local Open Scope Z_scope.

(* ===================================================================== *)
(** ** JavaScript values *)
(* ===================================================================== *)

Module Js.

(** JSON documents, as produced by [JSON.parse] and consumed by
    [res.json]. *)
Inductive json : Type :=
| JNull
| JBool (b : bool)
| JNum (q : Q)
| JStr (s : string)
| JArr (items : list json)
| JObj (fields : list (string * json)).

(** JavaScript's notion of a truthy value, the test behind [if (v)],
    [a || b] and [a && b]. *)
Class Truthy (A : Type) := truthy : A → bool.

#[global] Instance truthy_string : Truthy string :=
  fun s => match s with EmptyString => false | String _ _ => true end.

#[global] Instance truthy_json : Truthy json :=
  fun v =>
    match v with
    | JNull => false
    | JBool b => b
    | JNum q => negb (Qnum q =? 0)%Z
    | JStr s => truthy s
    | JArr _ | JObj _ => true
    end.

(** [None] stands for [undefined]. *)
#[global] Instance truthy_option {A} `{Truthy A} : Truthy (option A) :=
  fun o => match o with Some a => truthy a | None => false end.

(** [a || b]: the first operand when it is truthy, the second one
    otherwise. *)
Definition or {A} `{Truthy A} (a b : A) : A := if truthy a then a else b.

(** [a || 'literal']: every string literal used as a fallback in
    [gateway.js] is non-empty, so the result is a string. *)
Definition or_else (a : option string) (b : string) : string :=
  match a with
  | Some s => if truthy s then s else b
  | None => b
  end.

(** [Object.keys(v).length] for a value other than [null] and
    [undefined]: own enumerable keys of an object, indices of an array
    or of a string, nothing for a primitive. *)
Definition Object_keys_length (v : json) : nat :=
  match v with
  | JObj fields => length (remove_dups (map fst fields))
  | JArr items => length items
  | JStr s => String.length s
  | JNull | JBool _ | JNum _ => 0%nat
  end.

(** *** [JSON.stringify]

    The text [res.json] writes for a value.  Strings are sequences of
    bytes, so a character outside ASCII stands as its UTF-8 encoding and
    the length of the text is its length in bytes. *)

Definition quote : string := String "034" EmptyString.
Definition backslash : string := String "092" EmptyString.

Definition hex (n : nat) : string := String.substring n 1 "0123456789abcdef".

Definition escape_char (c : ascii) : string :=
  let n := nat_of_ascii c in
  if (n =? 34)%nat then backslash +:+ quote
  else if (n =? 92)%nat then backslash +:+ backslash
  else if (n =? 8)%nat then backslash +:+ "b"
  else if (n =? 9)%nat then backslash +:+ "t"
  else if (n =? 10)%nat then backslash +:+ "n"
  else if (n =? 12)%nat then backslash +:+ "f"
  else if (n =? 13)%nat then backslash +:+ "r"
  else if (n <? 32)%nat then
    backslash +:+ "u00" +:+ hex (n / 16) +:+ hex (n mod 16)
  else String c EmptyString.

Fixpoint escape (s : string) : string :=
  match s with
  | EmptyString => EmptyString
  | String c s' => escape_char c +:+ escape s'
  end.

Definition quoted (s : string) : string := quote +:+ escape s +:+ quote.

(** The decimals of [rem / den], up to [fuel] of them. *)
Fixpoint decimals (fuel : nat) (rem den : Z) : string :=
  match fuel with
  | O => EmptyString
  | S fuel' =>
      if rem =? 0 then EmptyString
      else pretty (rem * 10 / den) +:+ decimals fuel' (rem * 10 mod den) den
  end.

(** A number as JavaScript prints it.  Numbers are kept as rationals
    here; the text is JavaScript's for the integers below [10^21] and
    for the decimal fractions of at most seventeen digits that are not
    below [10^-6] in magnitude, which JavaScript prints in positional
    notation. *)
Definition numberToString (q : Q) : string :=
  let n := Z.abs (Qnum q) in
  let d := Z.pos (Qden q) in
  (if Qnum q <? 0 then "-" else "") +:+ pretty (n / d) +:+
  (if n mod d =? 0 then "" else "." +:+ decimals 17 (n mod d) d).

Fixpoint commas (l : list string) : string :=
  match l with
  | [] => EmptyString
  | x :: rest =>
      match rest with
      | [] => x
      | _ :: _ => x +:+ "," +:+ commas rest
      end
  end.

(** An object read by [JSON.parse] has each key once, with the value of
    its last binding, at the place of its first one. *)
Definition bindings (fields : list (string * string)) : list (string * string) :=
  map (fun k =>
         (k, default EmptyString
               (snd <$> List.find (fun kv => bool_decide (fst kv = k)) (rev fields))))
      (remove_dups (map fst fields)).

Fixpoint stringify (v : json) : string :=
  match v with
  | JNull => "null"
  | JBool true => "true"
  | JBool false => "false"
  | JNum q => numberToString q
  | JStr s => quoted s
  | JArr items =>
      "[" +:+ commas ((fix each (l : list json) : list string :=
                         match l with
                         | [] => []
                         | x :: rest => stringify x :: each rest
                         end) items) +:+ "]"
  | JObj fields =>
      "{" +:+ commas (map (fun kv => quoted (fst kv) +:+ ":" +:+ snd kv)
                        (bindings
                           ((fix each (l : list (string * json)) :
                               list (string * string) :=
                               match l with
                               | [] => []
                               | (k, x) :: rest => (k, stringify x) :: each rest
                               end) fields))) +:+ "}"
  end.

(** [Buffer.byteLength(text)]. *)
Definition byteLength (s : string) : nat := String.length s.

(** What a [throw] carries and a [catch] receives.  For an error raised
    by axios, [isAxiosError] is set and [response] holds the upstream
    response when one was received. *)
Record Error (R : Type) : Type := mkError {
  isAxiosError : bool;
  code : option string;
  message : string;
  stack : string;
  response : option R
}.
Arguments mkError {R}.
Arguments isAxiosError {R}.
Arguments code {R}.
Arguments message {R}.
Arguments stack {R}.
Arguments response {R}.

Definition code_is {R} (e : Error R) (c : string) : bool :=
  match code e with
  | Some c' => bool_decide (c' = c)
  | None => false
  end.

End Js.

Import Js.

(* ===================================================================== *)
(** ** The axios client *)
(* ===================================================================== *)

(** An upstream response as axios hands it over: header names are
    lower-cased, the body is already parsed. *)
Module Response.
Record t : Type := mk {
  status : Z;
  headers : gmap string string;
  data : json
}.
End Response.

(** The request configuration object passed to [axios({...})]. *)
Module Config.
Record t : Type := mk {
  method : string;
  url : string;
  params : list (string * json);
  data : option json;
  headers : gmap string (option string);
  timeout : Z;
  validateStatus : Z → bool;
  maxContentLength : Z;
  maxBodyLength : Z
}.
End Config.

Module Axios.

Definition Error : Type := Js.Error Response.t.

(** The promise returned by [axios(config)], once settled. *)
Inductive Outcome : Type :=
| Resolved (r : Response.t)
| Rejected (e : Error).

Definition AxiosError (c msg : string) (r : option Response.t) : Error :=
  mkError true (Some c) msg "" r.

(** *** What happens on the wire

    axios is a dependency of the gateway, not part of it.  [request]
    below follows its Node HTTP adapter: a refused connection surfaces
    with the socket's code [ECONNREFUSED]; a request that outlives
    [timeout] milliseconds is aborted with [ECONNABORTED]; a request
    body above [maxBodyLength] is rejected with [ERR_BAD_REQUEST] and a
    response body above [maxContentLength] with [ERR_BAD_RESPONSE],
    neither carrying a response; a response whose status fails
    [validateStatus] is rejected with the response attached.  The
    timeout and the limits are taken as set, which they are in every
    configuration the gateway builds. *)
Inductive Reaction : Type :=
| Answers (r : Response.t) (after_ms : Z) (content_bytes : Z)
| Refuses
| NeverAnswers
| Breaks (c msg : string).

Record Wire : Type := mkWire {
  request_bytes : Z;
  reaction : Reaction
}.

Definition timeoutError (cfg : Config.t) : Error :=
  AxiosError "ECONNABORTED"
    ("timeout of " +:+ pretty (Config.timeout cfg) +:+ "ms exceeded") None.

Definition settle (cfg : Config.t) (r : Response.t) : Outcome :=
  if Config.validateStatus cfg (Response.status r) then Resolved r
  else
    Rejected
      (AxiosError
         (if (400 <=? Response.status r) && (Response.status r <? 500)
          then "ERR_BAD_REQUEST" else "ERR_BAD_RESPONSE")
         ("Request failed with status code " +:+ pretty (Response.status r))
         (Some r)).

Definition request (w : Wire) (cfg : Config.t) : Outcome :=
  if Config.maxBodyLength cfg <? request_bytes w then
    Rejected
      (AxiosError "ERR_BAD_REQUEST"
         "Request body larger than maxBodyLength limit" None)
  else
    match reaction w with
    | Refuses => Rejected (AxiosError "ECONNREFUSED" "connect ECONNREFUSED" None)
    | NeverAnswers => Rejected (timeoutError cfg)
    | Breaks c msg => Rejected (AxiosError c msg None)
    | Answers r after_ms content_bytes =>
        if Config.timeout cfg <? after_ms then Rejected (timeoutError cfg)
        else if Config.maxContentLength cfg <? content_bytes then
          Rejected
            (AxiosError "ERR_BAD_RESPONSE"
               ("maxContentLength size of " +:+ pretty (Config.maxContentLength cfg)
                +:+ " exceeded") None)
        else settle cfg r
    end.

(** *** The request line

    axios appends the serialised [params] to the query string the [url]
    already carries.  [sentKeys] lists the parameter names of the
    resulting request line, in order, with repetitions. *)
Fixpoint split_at (sep : ascii) (s : string) : list string :=
  match s with
  | EmptyString => [EmptyString]
  | String c s' =>
      if Ascii.eqb c sep then EmptyString :: split_at sep s'
      else
        match split_at sep s' with
        | [] => [String c EmptyString]
        | w :: ws => String c w :: ws
        end
  end.

Definition search (u : string) : string :=
  match String.index 0 "?" u with
  | Some i => String.substring (S i) (String.length u - S i) u
  | None => EmptyString
  end.

Definition key_of (pair : string) : string :=
  match split_at "="%char pair with
  | k :: _ => k
  | [] => EmptyString
  end.

Definition urlKeys (u : string) : list string :=
  map key_of (filter (fun p => p ≠ EmptyString) (split_at "&"%char (search u))).

Definition sentKeys (cfg : Config.t) : list string :=
  urlKeys (Config.url cfg) ++ map fst (Config.params cfg).

(** How many times the parameter [k] goes out with the request. *)
Definition transmissions (k : string) (cfg : Config.t) : nat :=
  length (filter (fun k' => k' = k) (sentKeys cfg)).

(** *** The request head

    What axios makes of [config.headers] before the request goes out.  A
    field whose value is [undefined] is left out.  When the data is an
    object or an array, the empty ones included, the data is serialised
    as JSON and [Content-Type: application/json] is set unless the
    configuration has a content type of its own.  [requestHeaders] is the
    resulting table, the field names as the configuration writes them.
    The fields axios and Node add on their own account ([Accept],
    [User-Agent], [Accept-Encoding], [Content-Length], [Host],
    [Connection]) do not depend on the configuration's headers and are
    not in the table. *)
Definition isObject (data : option json) : bool :=
  match data with
  | Some (JObj _) | Some (JArr _) => true
  | _ => false
  end.

Definition defined (h : gmap string (option string)) : gmap string string :=
  omap id h.

Definition requestHeaders (cfg : Config.t) : gmap string string :=
  let h := defined (Config.headers cfg) in
  match h !! "Content-Type" with
  | Some _ => h
  | None =>
      if isObject (Config.data cfg) then <["Content-Type" := "application/json"]> h
      else h
  end.

End Axios.

(* ===================================================================== *)
(** ** Express: request, response and the handler monad *)
(* ===================================================================== *)

(** The inbound request, as a route handler sees it: after
    [express.json()] has parsed the body and Express has derived [query],
    [ip] and [protocol].  [headers] is keyed by lower-cased header
    names. *)
Module Req.
Record t : Type := mk {
  method : string;
  url : string;
  query : list (string * json);
  headers : gmap string string;
  body : option json;
  ip : option string;
  connection_remoteAddress : option string;
  socket_remoteAddress : option string;
  protocol : string
}.
End Req.

(** The response object.  [headers] is the header table, keyed by
    lower-cased names: what the handler set through [setHeader] and what
    [res.json] set when framing the body; [sent] is the argument of the
    [res.json] call that went out; [jsonCalls] counts every [res.json]
    invocation, whether it went out or threw. *)
Module Res.
Record t : Type := mk {
  statusCode : Z;
  headers : gmap string string;
  headersSent : bool;
  sent : option json;
  jsonCalls : nat
}.

(** The response Node creates for each request. *)
Definition fresh : t := mk 200 ∅ false None 0.
End Res.

Module Express.

Record World : Type := mkWorld {
  res : Res.t;
  outbound : list Config.t
}.

Definition initial : World := mkWorld Res.fresh [].

Definition Error : Type := Axios.Error.

Inductive Completion (A : Type) : Type :=
| Normal (a : A) (w : World)
| Thrown (e : Error) (w : World).
Arguments Normal {A}.
Arguments Thrown {A}.

Definition final {A} (c : Completion A) : World :=
  match c with Normal _ w | Thrown _ w => w end.

Definition completes {A} (c : Completion A) : bool :=
  match c with Normal _ _ => true | Thrown _ _ => false end.

Definition M (A : Type) : Type := World → Completion A.

#[global] Instance M_ret : MRet M := fun A a w => Normal a w.

#[global] Instance M_bind : MBind M :=
  fun A B k m w =>
    match m w with
    | Normal a w' => k a w'
    | Thrown e w' => Thrown e w'
    end.

Definition throw {A} (e : Error) : M A := fun w => Thrown e w.

(** [try { body } catch (error) { handler }]. *)
Definition try_catch {A} (body : M A) (handler : Error → M A) : M A :=
  fun w =>
    match body w with
    | Normal a w' => Normal a w'
    | Thrown e w' => handler e w'
    end.

Definition getRes : M Res.t := fun w => Normal (res w) w.

Definition setRes (r : Res.t) : M unit :=
  fun w => Normal tt (mkWorld r (outbound w)).

Fixpoint forEach {A} (l : list A) (f : A → M unit) : M unit :=
  match l with
  | [] => mret tt
  | x :: l' => f x ;; forEach l' f
  end.

(** Node refuses to touch the headers of a response that is already on
    its way. *)
Definition ERR_HTTP_HEADERS_SENT : Error :=
  mkError false (Some "ERR_HTTP_HEADERS_SENT")
    "Cannot set headers after they are sent to the client" "" None.

Definition lower_ascii (c : ascii) : ascii :=
  let n := nat_of_ascii c in
  if (65 <=? n)%nat && (n <=? 90)%nat then ascii_of_nat (n + 32) else c.

Fixpoint lower (s : string) : string :=
  match s with
  | EmptyString => EmptyString
  | String c s' => String (lower_ascii c) (lower s')
  end.

(** [res.status(code)]. *)
Definition status (c : Z) : M unit :=
  r ← getRes;
  setRes (Res.mk c (Res.headers r) (Res.headersSent r) (Res.sent r)
            (Res.jsonCalls r)).

(** [res.setHeader(name, value)]. *)
Definition setHeader (name value : string) : M unit :=
  r ← getRes;
  if Res.headersSent r then throw ERR_HTTP_HEADERS_SENT
  else
    setRes (Res.mk (Res.statusCode r) (<[name := value]> (Res.headers r))
              (Res.headersSent r) (Res.sent r) (Res.jsonCalls r)).

(** *** Media types

    [res.send] passes the response's content type through
    [setCharset(type, 'utf-8')], which reads it with the [content-type]
    package, sets its [charset] parameter and writes it out again: the
    type in lower case, the parameters with lower-case names in
    alphabetical order, a value that is not a token between quotes. *)

Definition is_token_char (c : ascii) : bool :=
  let n := nat_of_ascii c in
  ((48 <=? n) && (n <=? 57) || (65 <=? n) && (n <=? 90)
   || (97 <=? n) && (n <=? 122)
   || existsb (Nat.eqb n) [33; 35; 36; 37; 38; 39; 42; 43; 45; 46; 94; 95; 96; 124; 126])%nat.

Fixpoint all_chars (p : ascii → bool) (s : string) : bool :=
  match s with
  | EmptyString => true
  | String c s' => p c && all_chars p s'
  end.

Definition is_token (s : string) : bool :=
  truthy s && all_chars is_token_char s.

(** The longest prefix of [s] made of characters satisfying [p], and the
    rest. *)
Fixpoint span (p : ascii → bool) (s : string) : string * string :=
  match s with
  | EmptyString => (EmptyString, EmptyString)
  | String c s' =>
      if p c then let '(a, b) := span p s' in (String c a, b)
      else (EmptyString, s)
  end.

Definition is_space (c : ascii) : bool := (nat_of_ascii c =? 32)%nat.

Definition is_blank (c : ascii) : bool :=
  (nat_of_ascii c =? 32)%nat || (nat_of_ascii c =? 9)%nat.

Fixpoint reverse (s acc : string) : string :=
  match s with
  | EmptyString => acc
  | String c s' => reverse s' (String c acc)
  end.

Definition trim (s : string) : string :=
  let s1 := snd (span is_blank s) in
  reverse (snd (span is_blank (reverse s1 EmptyString))) EmptyString.

(** A type is two tokens around a slash. *)
Definition is_type (s : string) : bool :=
  match String.index 0 "/" s with
  | Some i =>
      is_token (String.substring 0 i s)
      && is_token (String.substring (S i) (String.length s - S i) s)
  | None => false
  end.

Definition qtext (c : ascii) : bool :=
  let n := nat_of_ascii c in
  ((n =? 11) || (n =? 32) || (n =? 33) || (35 <=? n) && (n <=? 91)
   || (93 <=? n) && (n <=? 126) || (128 <=? n))%nat.

Definition qescaped (c : ascii) : bool :=
  let n := nat_of_ascii c in ((n =? 11) || (32 <=? n))%nat.

(** The rest of a quoted string after its opening quote: its content
    with the escapes undone, and what follows the closing quote. *)
Fixpoint quoted_string (s : string) : option (string * string) :=
  match s with
  | EmptyString => None
  | String c s' =>
      if (nat_of_ascii c =? 34)%nat then Some (EmptyString, s')
      else if (nat_of_ascii c =? 92)%nat then
        match s' with
        | String d s'' =>
            if qescaped d then
              (fun r => (String d (fst r), snd r)) <$> quoted_string s''
            else None
        | EmptyString => None
        end
      else if qtext c then
        (fun r => (String c (fst r), snd r)) <$> quoted_string s'
      else None
  end.

Definition parameter_value (s : string) : option (string * string) :=
  match s with
  | String c s' =>
      if (nat_of_ascii c =? 34)%nat then quoted_string s'
      else
        let '(v, rest) := span is_token_char s in
        if truthy v then Some (v, rest) else None
  | EmptyString => None
  end.

(** The parameters: each one a semicolon, a name, an equals sign and a
    value, with spaces allowed around the three. *)
Fixpoint parameters (fuel : nat) (s : string) : option (list (string * string)) :=
  match s with
  | EmptyString => Some []
  | String c s1 =>
      match fuel with
      | O => None
      | S fuel' =>
          if (nat_of_ascii c =? 59)%nat then
            let '(key, s2) := span is_token_char (snd (span is_space s1)) in
            if truthy key then
              match snd (span is_space s2) with
              | String e s3 =>
                  if (nat_of_ascii e =? 61)%nat then
                    match parameter_value (snd (span is_space s3)) with
                    | Some (v, s4) =>
                        (fun rest => (lower key, v) :: rest)
                          <$> parameters fuel' (snd (span is_space s4))
                    | None => None
                    end
                  else None
              | EmptyString => None
              end
            else None
          else None
      end
  end.

(** [contentType.parse]: [None] where it throws. *)
Definition parse (header : string) : option (string * list (string * string)) :=
  let '(type, rest) :=
    match String.index 0 ";" header with
    | Some i =>
        (String.substring 0 i header,
         String.substring i (String.length header - i) header)
    | None => (header, EmptyString)
    end in
  if is_type (trim type) then
    (fun ps => (lower (trim type), ps)) <$> parameters (String.length rest) rest
  else None.

Fixpoint insert_sorted (kv : string * string) (l : list (string * string)) :
    list (string * string) :=
  match l with
  | [] => [kv]
  | kv' :: rest =>
      if String.leb (fst kv) (fst kv') then kv :: l
      else kv' :: insert_sorted kv rest
  end.

(** [obj.parameters[key] = value]: a later value replaces an earlier one;
    [Object.keys(...).sort()] then lists the names in order. *)
Definition assign (kv : string * string) (l : list (string * string)) :
    list (string * string) :=
  insert_sorted kv (filter (fun kv' => negb (bool_decide (fst kv' = fst kv))) l).

Definition text_char (c : ascii) : bool :=
  let n := nat_of_ascii c in
  ((n =? 11) || (32 <=? n) && (n <=? 126) || (128 <=? n))%nat.

Fixpoint escape_quoted (s : string) : string :=
  match s with
  | EmptyString => EmptyString
  | String c s' =>
      if (nat_of_ascii c =? 34)%nat || (nat_of_ascii c =? 92)%nat
      then Js.backslash +:+ String c (escape_quoted s')
      else String c (escape_quoted s')
  end.

(** [qstring]: [None] where it throws. *)
Definition qstring (v : string) : option string :=
  if is_token v then Some v
  else if all_chars text_char v
       then Some (Js.quote +:+ escape_quoted v +:+ Js.quote)
       else None.

Fixpoint format_parameters (ps : list (string * string)) : option string :=
  match ps with
  | [] => Some EmptyString
  | (k, v) :: rest =>
      q ← qstring v;
      tail ← format_parameters rest;
      Some ("; " +:+ k +:+ "=" +:+ q +:+ tail)
  end.

(** [setCharset(type, 'utf-8')]: [None] where it throws a [TypeError]
    because [type] is not a media type. *)
Definition setCharset_checked (type : string) : option string :=
  '(t, ps) ← parse type;
  tail ← format_parameters (assign ("charset", "utf-8") (foldl (flip assign) [] ps));
  Some (t +:+ tail).

(** The text [setCharset] leaves in the header.  A value that is not a
    media type is kept as it is: the [TypeError] the library throws for
    it is not modelled.  The statements below that depend on the content
    type of a backend answer take it to be a media type. *)
Definition setCharset (type : string) : string :=
  default type (setCharset_checked type).

(** *** Sending *)

(** Node accepts the status codes from 100 to 999 when the head of the
    response is written, and throws for any other. *)
Definition validStatus (c : Z) : bool := (100 <=? c) && (c <=? 999).

Definition ERR_HTTP_INVALID_STATUS_CODE (c : Z) : Error :=
  mkError false (Some "ERR_HTTP_INVALID_STATUS_CODE")
    ("Invalid status code: " +:+ pretty c) "" None.

(** The header table as [res.json(v)] leaves it on a response of status
    [c]: a content type is made up when there is none, the charset of the
    one there is becomes [utf-8], and the content length is the length of
    the serialised value whatever the table held before.  A 204 or 304
    response loses both fields; a 205 response has length 0. *)
Definition framed (c : Z) (v : Js.json) (h : gmap string string) :
    gmap string string :=
  let type :=
    match h !! "content-type" with
    | Some t => if truthy t then setCharset t else "application/json; charset=utf-8"
    | None => "application/json; charset=utf-8"
    end in
  let h :=
    <["content-length" := pretty (Js.byteLength (Js.stringify v))]>
      (<["content-type" := type]> h) in
  if (c =? 204) || (c =? 304) then
    delete "content-length" (delete "content-type" h)
  else if c =? 205 then <["content-length" := "0"]> h
  else h.

(** [res.json(value)]: serialises [value], frames it and sends it.  The
    framing headers are set first, so the call throws on a response that
    is already on its way; the head is written last, so a status Node
    refuses makes the call throw after the headers are set and before
    anything is sent.

    The header table holds what the handler and [res.json] set for
    [content-type] and [content-length] and what the handler set for any
    other name.  Fields that Express and Node add on their own account
    ([X-Powered-By], [ETag], [Date], [Connection]) are not in it.  [sent]
    is the value handed to the call that went out; that a conditional
    request may be answered 304 and that a HEAD request or a 204, 205 or
    304 status is answered without the text are not modelled. *)
Definition json (v : Js.json) : M unit :=
  r ← getRes;
  setRes (Res.mk (Res.statusCode r) (Res.headers r) (Res.headersSent r)
            (Res.sent r) (S (Res.jsonCalls r))) ;;
  if Res.headersSent r then throw ERR_HTTP_HEADERS_SENT
  else
    let h := framed (Res.statusCode r) v (Res.headers r) in
    if validStatus (Res.statusCode r) then
      setRes (Res.mk (Res.statusCode r) h true (Some v) (S (Res.jsonCalls r)))
    else
      setRes (Res.mk (Res.statusCode r) h false (Res.sent r)
                (S (Res.jsonCalls r))) ;;
      throw (ERR_HTTP_INVALID_STATUS_CODE (Res.statusCode r)).

(** The reply Express gives on its own to an OPTIONS request for a path
    that has routes for other methods: 200 with the list of these
    methods in [Allow] and as the text, sent through [res.send]. *)
Definition sendOptionsResponse (methods : string) : M unit :=
  r ← getRes;
  if Res.headersSent r then throw ERR_HTTP_HEADERS_SENT
  else
    setRes (Res.mk (Res.statusCode r)
              (<["content-length" := pretty (Js.byteLength methods)]>
                 (<["content-type" := "text/html; charset=utf-8"]>
                    (<["allow" := methods]> (Res.headers r))))
              true (Res.sent r) (Res.jsonCalls r)).

(** Express's final handler: 404 when no route matched, the error's
    status when routing failed. *)
Definition finalhandler (c : Z) : M unit :=
  r ← getRes;
  setRes (Res.mk c (Res.headers r) true (Res.sent r) (Res.jsonCalls r)).

(** *** Route paths *)

(** [req.path]: the URL up to the query string. *)
Definition pathname (u : string) : string :=
  match String.index 0 "?" u with
  | Some i => String.substring 0 i u
  | None => u
  end.

(** The route path [/api/] followed by a star.  Express compiles it to a
    case-insensitive regular expression anchored at both ends: the
    literal [/api/], then a group matching any run of characters (the
    empty one included) in place of the star, then an optional slash.
    A match yields what the group captured. *)
Definition match_api_star (path : string) : option string :=
  if String.prefix "/api/" (lower path)
  then Some (String.substring 5 (String.length path - 5) path)
  else None.

(** A captured group is percent-decoded before the handler runs, except
    when it is empty; [decodeURIComponent] yields [None] where the
    JavaScript function throws. *)
Definition decode_param (decodeURIComponent : string → option string)
    (val : string) : option string :=
  match val with
  | EmptyString => Some val
  | String _ _ => decodeURIComponent val
  end.

(** The route path [/health]: the literal, then an optional slash,
    compared without regard to case. *)
Definition matches_health (path : string) : bool :=
  let p := lower path in
  bool_decide (p = "/health") || bool_decide (p = "/health/").

End Express.

(* ===================================================================== *)
(** ** gateway.js *)
(* ===================================================================== *)

Module Gateway.
Import Express.

Section Handlers.

(** The environment of the process: [process.env.BACKEND_URL], the
    [axios] function, the clock read by [new Date().toISOString()] and
    the language's [decodeURIComponent]. *)
Variable BACKEND_URL : option string.
Variable axios : Config.t → Axios.Outcome.
Variable now : string.
Variable decodeURIComponent : string → option string.

Definition backendUrl : string := Js.or_else BACKEND_URL "http://backend:3847".

(** [await axios(config)]: the call is issued, then the handler resumes
    with the response or with the error thrown at the [await]. *)
Definition await_axios (cfg : Config.t) : M Response.t :=
  fun w =>
    let w' := mkWorld (res w) (outbound w ++ [cfg]) in
    match axios cfg with
    | Axios.Resolved r => Normal r w'
    | Axios.Rejected e => Thrown e w'
    end.

Definition targetPath (req : Req.t) : string := Req.url req.

Definition targetUrl (req : Req.t) : string := backendUrl +:+ targetPath req.

(** [req.body && Object.keys(req.body).length > 0]. *)
Definition hasBody (req : Req.t) : bool :=
  match Req.body req with
  | Some b => truthy b && (0 <? Object_keys_length b)%nat
  | None => false
  end.

(** The [headers] object built for the backend. *)
Definition headers (req : Req.t) : gmap string (option string) :=
  let headers : gmap string (option string) := ∅ in
  let headers :=
    if hasBody req then
      <["Content-Type" :=
          Some (Js.or_else (Req.headers req !! "content-type") "application/json")]>
        headers
    else headers in
  let headers :=
    <["X-Forwarded-For" :=
        Js.or (Js.or (Req.ip req) (Req.connection_remoteAddress req))
          (Req.socket_remoteAddress req)]> headers in
  <["X-Forwarded-Proto" := Some (Req.protocol req)]> headers.

Definition config (req : Req.t) : Config.t :=
  {| Config.method := Req.method req;
     Config.url := targetUrl req;
     Config.params := Req.query req;
     Config.data := Req.body req;
     Config.headers := headers req;
     Config.timeout := 30000;
     Config.validateStatus := fun _ => true;
     Config.maxContentLength := 50 * 1024 * 1024;
     Config.maxBodyLength := 50 * 1024 * 1024 |}.

Definition headersToForward : list string := ["content-type"; "content-length"].

Definition unavailable : Js.json :=
  JObj [("error", JStr "Backend service unavailable");
        ("message",
         JStr "The backend service is currently unavailable. Please try again later.")].

Definition timed_out : Js.json :=
  JObj [("error", JStr "Backend service timeout");
        ("message",
         JStr "The backend service did not respond in time. Please try again later.")].

Definition bad_gateway : Js.json :=
  JObj [("error", JStr "Bad Gateway");
        ("message", JStr "Failed to proxy request to backend service")].

(** The [catch (error)] block of [proxyRequest].  The first part is the
    [if (axios.isAxiosError(error))] statement, whose three branches
    return; it yields [false] when control falls through to the generic
    handling below it. *)
Definition axiosBranches (error : Error) : M bool :=
  if isAxiosError error then
    if code_is error "ECONNREFUSED" then
      Express.status 503 ;; Express.json unavailable ;; mret true
    else if code_is error "ETIMEDOUT" || code_is error "ECONNABORTED" then
      Express.status 504 ;; Express.json timed_out ;; mret true
    else
      match response error with
      | Some r =>
          Express.status (Response.status r) ;;
          Express.json (Response.data r) ;;
          mret true
      | None => mret false
      end
  else mret false.

Definition catchBlock (error : Error) : M unit :=
  returned ← axiosBranches error;
  if returned : bool then mret tt
  else
    r ← getRes;
    if negb (Res.headersSent r) then
      Express.status 502 ;; Express.json bad_gateway
    else mret tt.

(** The [try] block of [proxyRequest], on its own. *)
Definition tryBlock (req : Req.t) : M unit :=
  response ← await_axios (config req);
  Express.status (Response.status response) ;;
  forEach headersToForward
    (fun header =>
       match Response.headers response !! header with
       | Some v => if truthy v then Express.setHeader header v else mret tt
       | None => mret tt
       end) ;;
  Express.json (Response.data response).

Definition proxyRequest (req : Req.t) : M unit :=
  try_catch
    (response ← await_axios (config req);
     Express.status (Response.status response) ;;
     forEach headersToForward
       (fun header =>
          match Response.headers response !! header with
          | Some v => if truthy v then Express.setHeader header v else mret tt
          | None => mret tt
          end) ;;
     Express.json (Response.data response))
    catchBlock.

(** [app.get('/health', ...)]. *)
Definition health : M unit :=
  Express.json
    (JObj [("status", JStr "ok"); ("timestamp", JStr now);
           ("service", JStr "gateway")]).

(** The routing table: [app.all] for the API prefix, [app.get] for the
    health path (which also serves HEAD), and what Express does when no
    handler takes the request: an OPTIONS request for the health path is
    answered with the methods the path has routes for; a path that
    matched the API route but whose captured part does not decode is
    answered 400 by the final handler, and anything else 404. *)
Definition app (req : Req.t) : M unit :=
  let path := pathname (Req.url req) in
  match match_api_star path with
  | Some splat =>
      match decode_param decodeURIComponent splat with
      | Some _ => proxyRequest req
      | None => finalhandler 400
      end
  | None =>
      if (bool_decide (Req.method req = "GET")
          || bool_decide (Req.method req = "HEAD"))
         && matches_health path then health
      else if bool_decide (Req.method req = "OPTIONS") && matches_health path
      then sendOptionsResponse "GET,HEAD"
      else finalhandler 404
  end.

(** One request served from start to end on a response of its own. *)
Definition serve (req : Req.t) : Completion unit := app req initial.

(** [app.use(express.json())] runs before the routes.  It hands on the
    request with its body parsed, the empty object standing for a body
    that is absent or not declared as JSON, or it fails: with 400 for
    text that is not JSON, 413 for a body over its size limit, 415 for a
    charset or an encoding it does not read.  A failure goes to the final
    handler, which answers with that status, and no route runs.  The raw
    request is not modelled: the parser's outcome is given. *)
Inductive Parse : Type :=
| Parsed (req : Req.t)
| Failed (status : Z).

Definition dispatch (p : Parse) : M unit :=
  match p with
  | Parsed req => app req
  | Failed c => finalhandler c
  end.

End Handlers.

End Gateway.

(* ===================================================================== *)
(** ** The failure table of the specification *)
(* ===================================================================== *)

(** The specification lists the failure conditions as rows of a table,
    the first matching row giving the reply.  [Spec] writes that table
    down as such, to be compared with the nested conditionals of the
    [catch] block. *)
Module Spec.

Inductive Branch : Type :=
| Unavailable
| TimedOut
| Relayed (r : Response.t)
| BadGateway.

Definition refused (e : Express.Error) : bool :=
  isAxiosError e && code_is e "ECONNREFUSED".

Definition timedOut (e : Express.Error) : bool :=
  isAxiosError e && (code_is e "ETIMEDOUT" || code_is e "ECONNABORTED").

Definition carried (e : Express.Error) : option Response.t :=
  if isAxiosError e then response e else None.

Definition rows : list (Express.Error → option Branch) :=
  [ (fun e => if refused e then Some Unavailable else None);
    (fun e => if timedOut e then Some TimedOut else None);
    (fun e => Relayed <$> carried e);
    (fun _ => Some BadGateway) ].

Fixpoint firstMatch (table : list (Express.Error → option Branch))
    (e : Express.Error) : option Branch :=
  match table with
  | [] => None
  | row :: rest =>
      match row e with
      | Some b => Some b
      | None => firstMatch rest e
      end
  end.

Definition classify (e : Express.Error) : Branch :=
  default BadGateway (firstMatch rows e).

Definition synthesized (b : Branch) : bool :=
  match b with Relayed _ => false | _ => true end.

(** Status and body of the reply each row stands for. *)
Definition reply (b : Branch) : Z * json :=
  match b with
  | Unavailable => (503, Gateway.unavailable)
  | TimedOut => (504, Gateway.timed_out)
  | Relayed r => (Response.status r, Response.data r)
  | BadGateway => (502, Gateway.bad_gateway)
  end.

(** [v.k] for an object [v]. *)
Definition field (k : string) (v : json) : option json :=
  match v with
  | JObj fields => snd <$> List.find (fun kv => bool_decide (fst kv = k)) fields
  | _ => None
  end.

(** The effect on the client response's header table of the loop over
    [headersToForward], one step per header name. *)
Definition relay (r : Response.t) (name : string) (h : gmap string string) :
    gmap string string :=
  match Response.headers r !! name with
  | Some v => if truthy v then <[name := v]> h else h
  | None => h
  end.

(** The world a handler leaves behind when it answers with status [c]
    and body [v] through one [res.json] call. *)
Definition answered (c : Z) (v : json) (w : Express.World) : Express.World :=
  let r := Express.res w in
  Express.mkWorld
    (Res.mk c (Express.framed c v (Res.headers r)) true (Some v)
       (S (Res.jsonCalls r)))
    (Express.outbound w).

(** The world after the [try] block has issued the call [cfg], set the
    status of the response [r] and copied its two headers. *)
Definition copied (cfg : Config.t) (w : Express.World) (r : Response.t) :
    Express.World :=
  let c := Express.res w in
  Express.mkWorld
    (Res.mk (Response.status r)
       (relay r "content-length" (relay r "content-type" (Res.headers c)))
       (Res.headersSent c) (Res.sent c) (Res.jsonCalls c))
    (Express.outbound w ++ [cfg]).

End Spec.

(* ===================================================================== *)
(** ** Sample requests and backends *)
(* ===================================================================== *)

Module Sample.

Definition request (method url : string) (query : list (string * json))
    (body : option json) : Req.t :=
  Req.mk method url query
    {[ "content-type" := "application/json"; "x-custom" := "foo" ]}
    body (Some "10.0.0.7") (Some "10.0.0.7") (Some "10.0.0.7") "http".

Definition widget : json :=
  JObj [("name", JStr "Widget"); ("price", JNum (999 # 100))].

Definition create : Req.t := request "POST" "/api/products" [] (Some widget).

Definition get : Req.t :=
  request "GET" "/api/products/000000000000000000000000" [] (Some (JObj [])).

Definition list_page : Req.t :=
  request "GET" "/api/products?page=2" [("page", JStr "2")] (Some (JObj [])).

Definition created : Response.t :=
  Response.mk 201
    {[ "content-type" := "application/json; charset=utf-8";
       "content-length" := "42";
       "x-powered-by" := "Express" ]}
    widget.

Definition not_found : Response.t :=
  Response.mk 404 {[ "x-powered-by" := "Express" ]}
    (JObj [("error", JStr "Product not found")]).

Definition MiB : Z := 1024 * 1024.

Definition up (r : Response.t) : Axios.Wire := Axios.mkWire 64 (Axios.Answers r 12 42).
Definition down : Axios.Wire := Axios.mkWire 64 Axios.Refuses.
Definition slow (r : Response.t) : Axios.Wire :=
  Axios.mkWire 64 (Axios.Answers r 30001 42).
Definition huge (r : Response.t) : Axios.Wire :=
  Axios.mkWire 64 (Axios.Answers r 12 (50 * MiB + 1)).

Definition refusal : Express.Error :=
  Axios.AxiosError "ECONNREFUSED" "connect ECONNREFUSED" None.

Definition reset : Express.Error :=
  mkError true (Some "ECONNRESET") "socket hang up" "Error: socket hang up at ..." None.

Definition dns : Express.Error :=
  mkError true (Some "ENOTFOUND") "getaddrinfo ENOTFOUND backend"
    "Error: getaddrinfo ENOTFOUND backend at ..." None.

(** An answer whose text is JSON laid out with spaces, 53 bytes of it,
    and which declares no content type. *)
Definition laid_out : Response.t :=
  Response.mk 200 {[ "content-length" := "53"; "x-powered-by" := "Express" ]}
    (JObj [("ok", JBool true)]).

Definition spaced : Axios.Wire := Axios.mkWire 64 (Axios.Answers laid_out 12 53).

(** An answer whose status line carries a code below 100. *)
Definition odd : Response.t :=
  Response.mk 99 {[ "content-type" := "application/json" ]}
    (JObj [("ok", JBool true)]).

End Sample.

(* ===================================================================== *)
(** ** JavaScript numbers *)
(* ===================================================================== *)

(** The numbers the back end computes with: results of [parseInt],
    document counts, and what [Math.max], [Math.min], [Math.ceil] and the
    arithmetic operators make of them.  A finite number is a rational;
    JavaScript's doubles agree with that on integers below 2^53 in
    magnitude, where sums and products of integers are exact and the
    quotient by an integer up to 100 is rounded without crossing an
    integer, so that [Math.ceil] of it is the ceiling of the exact
    quotient. *)
Module Number.

Inductive t : Type :=
| NaN
| Infinity (negative : bool)
| Finite (q : Q).

#[global] Instance truthy_number : Truthy t :=
  fun n =>
    match n with
    | NaN => false
    | Infinity _ => true
    | Finite q => negb (Qeq_bool q 0)
    end.

Definition ofZ (z : Z) : t := Finite (inject_Z z).

(** [a < b]. *)
Definition lt (a b : t) : bool :=
  match a with
  | NaN => false
  | Infinity true =>
      match b with
      | NaN | Infinity true => false
      | Infinity false | Finite _ => true
      end
  | Infinity false => false
  | Finite x =>
      match b with
      | NaN | Infinity true => false
      | Infinity false => true
      | Finite y => negb (Qle_bool y x)
      end
  end.

(** [Math.max(a, b)] and [Math.min(a, b)]. *)
Definition max (a b : t) : t :=
  match a, b with
  | NaN, _ | _, NaN => NaN
  | _, _ => if lt a b then b else a
  end.

Definition min (a b : t) : t :=
  match a, b with
  | NaN, _ | _, NaN => NaN
  | _, _ => if lt b a then b else a
  end.

Definition opp (a : t) : t :=
  match a with
  | NaN => NaN
  | Infinity s => Infinity (negb s)
  | Finite q => Finite (- q)
  end.

(** [a + b], [a - b], [a * b], [a / b]. *)
Definition add (a b : t) : t :=
  match a, b with
  | NaN, _ | _, NaN => NaN
  | Infinity s, Infinity s' => if Bool.eqb s s' then Infinity s else NaN
  | Infinity s, Finite _ => Infinity s
  | Finite _, Infinity s => Infinity s
  | Finite x, Finite y => Finite (x + y)
  end.

Definition sub (a b : t) : t := add a (opp b).

Definition negative (q : Q) : bool := negb (Qle_bool 0 q).

Definition mul (a b : t) : t :=
  match a, b with
  | NaN, _ | _, NaN => NaN
  | Infinity s, Infinity s' => Infinity (xorb s s')
  | Infinity s, Finite q | Finite q, Infinity s =>
      if Qeq_bool q 0 then NaN else Infinity (xorb s (negative q))
  | Finite x, Finite y => Finite (x * y)
  end.

Definition div (a b : t) : t :=
  match a, b with
  | NaN, _ | _, NaN => NaN
  | Infinity _, Infinity _ => NaN
  | Infinity s, Finite q => Infinity (xorb s (negative q))
  | Finite _, Infinity _ => Finite 0
  | Finite x, Finite y =>
      if Qeq_bool y 0 then
        if Qeq_bool x 0 then NaN else Infinity (negative x)
      else Finite (x / y)
  end.

(** [Math.ceil(a)]. *)
Definition ceil (a : t) : t :=
  match a with
  | Finite q => Finite (inject_Z (Qceiling q))
  | _ => a
  end.

(** What [JSON.stringify] makes of a number. *)
Definition toJSON (a : t) : json :=
  match a with
  | Finite q => JNum q
  | NaN | Infinity _ => JNull
  end.

End Number.

(* ===================================================================== *)
(** ** The back end: routes/products.ts and index.ts *)
(* ===================================================================== *)

Module Backend.

(** What the handlers catch: a Mongoose or driver error, or a JavaScript
    error.  [errors] is the table of a Mongoose validation error, field by
    field, in enumeration order, reduced to each entry's message. *)
Record Err : Type := mkErr {
  name : option string;
  code : option json;
  message : string;
  errors : option (list (string * string))
}.

(** A settled promise. *)
Inductive Settled (A : Type) : Type :=
| Fulfilled (a : A)
| Rejected (e : Err).
Arguments Fulfilled {A}.
Arguments Rejected {A}.

(** The handlers run on the response object alone. *)
Inductive Completion (A : Type) : Type :=
| Done (a : A) (r : Res.t)
| Raised (e : Err) (r : Res.t).
Arguments Done {A}.
Arguments Raised {A}.

Definition final {A} (c : Completion A) : Res.t :=
  match c with Done _ r | Raised _ r => r end.

Definition completes {A} (c : Completion A) : bool :=
  match c with Done _ _ => true | Raised _ _ => false end.

Definition B (A : Type) : Type := Res.t → Completion A.

#[global] Instance B_ret : MRet B := fun A a r => Done a r.

#[global] Instance B_bind : MBind B :=
  fun A C k m r =>
    match m r with
    | Done a r' => k a r'
    | Raised e r' => Raised e r'
    end.

Definition raise {A} (e : Err) : B A := fun r => Raised e r.

Definition try_catch {A} (body : B A) (handler : Err → B A) : B A :=
  fun r =>
    match body r with
    | Done a r' => Done a r'
    | Raised e r' => handler e r'
    end.

(** [await p]. *)
Definition await {A} (p : Settled A) : B A :=
  match p with
  | Fulfilled a => mret a
  | Rejected e => raise e
  end.

(** An error thrown by the response object, as a handler catches it. *)
Definition ofThrown (e : Express.Error) : Err :=
  mkErr (Some "Error") (JStr <$> Js.code e) (Js.message e) None.

(** The methods of the response object are those of [Express]. *)
Definition lift {A} (m : Express.M A) : B A :=
  fun r =>
    match m (Express.mkWorld r []) with
    | Express.Normal a w => Done a (Express.res w)
    | Express.Thrown e w => Raised (ofThrown e) (Express.res w)
    end.

Definition status (c : Z) : B unit := lift (Express.status c).
Definition send (v : json) : B unit := lift (Express.json v).

Definition TypeError (msg : string) : Err := mkErr (Some "TypeError") None msg None.

(** [v.k], the last binding winning as [JSON.parse] has it; [None] is
    [undefined]. *)
Definition prop (k : string) (v : json) : option json :=
  match v with
  | JObj fields =>
      snd <$> List.find (fun kv => bool_decide (fst kv = k)) (rev fields)
  | _ => None
  end.

(** [const { name, price } = body]: throws on [undefined] and [null]. *)
Definition destructure (body : option json) : B (option json * option json) :=
  match body with
  | None | Some JNull =>
      raise (TypeError "Cannot destructure property 'name' of 'req.body'")
  | Some v => mret (prop "name" v, prop "price" v)
  end.

Fixpoint join (sep : string) (l : list string) : string :=
  match l with
  | [] => EmptyString
  | [x] => x
  | x :: rest => x +:+ sep +:+ join sep rest
  end.

(** One entry of a Joi error's [details]. *)
Record Detail : Type := mkDetail {
  path : list string;
  detail_message : string
}.

(** The result of [schema.validate(body, options)]. *)
Record Validation : Type := mkValidation {
  error : option (list Detail);
  value : option json
}.

Definition setBody (req : Req.t) (b : option json) : Req.t :=
  Req.mk (Req.method req) (Req.url req) (Req.query req) (Req.headers req) b
    (Req.ip req) (Req.connection_remoteAddress req)
    (Req.socket_remoteAddress req) (Req.protocol req).

(** [parseInt(req.query.k)]; a missing parameter is [undefined], which
    parses to [NaN]. *)
Definition queryParam (k : string) (req : Req.t) : option json :=
  snd <$> List.find (fun kv => bool_decide (fst kv = k)) (Req.query req).

Section Handlers.

(** What the handlers take from their environment: [parseInt] on a
    query value; the two Joi schemas; Mongoose's [ObjectId.isValid] and
    the five queries the routes issue, each with the outcome it settles
    to; the connection's [readyState], the clock, [process.uptime()] and
    [process.env.NODE_ENV]. *)
Variable parseInt : json → Number.t.
Variable isValid : string → bool.
Variable save : option json → option json → Settled json.
Variable findByIdAndUpdate : string → list (string * json) → Settled (option json).
Variable findPage : Number.t → Number.t → Settled (list json * Z).
Variable findById : string → Settled (option json).
Variable findByIdAndDelete : string → Settled (option json).
Variable readyState : Z.
Variable now : string.
Variable uptime : Q.
Variable NODE_ENV : option string.

Definition isValidObjectId (id : string) : bool := isValid id.

Definition name_is (err : Err) (n : string) : bool :=
  match name err with
  | Some n' => bool_decide (n' = n)
  | None => false
  end.

(** [err.code === 11000]. *)
Definition duplicateKey (err : Err) : bool :=
  match code err with
  | Some (JNum q) => Qeq_bool q 11000
  | _ => false
  end.

Definition handleProductError (err : Err) (endpoint : string) : B unit :=
  if name_is err "ValidationError" then
    status 400 ;;
    match errors err with
    | Some table =>
        send (JObj [("error", JStr "Validation failed");
                    ("details", JArr (map (fun e => JStr (snd e)) table))])
    | None => raise (TypeError "Cannot convert undefined or null to object")
    end
  else if duplicateKey err then
    status 409 ;;
    send (JObj [("error", JStr "Product with this name already exists")])
  else if name_is err "CastError" then
    status 400 ;;
    send (JObj [("error", JStr "Invalid data format")])
  else
    status 500 ;;
    send (JObj [("error", JStr "Internal server error")]).

(** [validateRequest(schema)], with the rest of the route as [next]. *)
Definition validateRequest (schema : option json → Validation)
    (next : Req.t → B unit) (req : Req.t) : B unit :=
  let result := schema (Req.body req) in
  match error result with
  | Some details =>
      let messages :=
        map (fun detail =>
               JObj [("field", JStr (join "." (path detail)));
                     ("message", JStr (detail_message detail))])
            details in
      status 400 ;;
      send (JObj [("error", JStr "Validation failed");
                  ("details", JArr messages)])
  | None => next (setBody req (value result))
  end.

(** [router.post('/')], after validation. *)
Definition createProduct (req : Req.t) : B unit :=
  try_catch
    ('(name, price) ← destructure (Req.body req);
     saved ← await (save name price);
     status 201 ;;
     send saved)
    (fun err => handleProductError err "POST /api/products").

(** The update document of [router.put('/:id')]. *)
Definition updateDocument (name price : option json) : list (string * json) :=
  (match name with
   | Some n => if truthy n then [("name", n)] else []
   | None => []
   end)
  ++ (match price with
      | Some p => [("price", p)]
      | None => []
      end).

Definition updateProduct (id : string) (req : Req.t) : B unit :=
  try_catch
    ('(name, price) ← destructure (Req.body req);
     if negb (isValidObjectId id) then
       status 400 ;; send (JObj [("error", JStr "Invalid product ID")])
     else
       updated ← await (findByIdAndUpdate id (updateDocument name price));
       match updated with
       | None => status 404 ;; send (JObj [("error", JStr "Product not found")])
       | Some doc => status 200 ;; send doc
       end)
    (fun err => handleProductError err "PUT /api/products/:id").

Definition parsed (k : string) (req : Req.t) : Number.t :=
  match queryParam k req with
  | Some v => parseInt v
  | None => Number.NaN
  end.

Definition page (req : Req.t) : Number.t :=
  Number.max (Number.ofZ 1) (Js.or (parsed "page" req) (Number.ofZ 1)).

Definition limit (req : Req.t) : Number.t :=
  Number.min
    (Number.max (Number.ofZ 1) (Js.or (parsed "limit" req) (Number.ofZ 10)))
    (Number.ofZ 100).

Definition skip (req : Req.t) : Number.t :=
  Number.mul (Number.sub (page req) (Number.ofZ 1)) (limit req).

Definition pages (total : Z) (req : Req.t) : Number.t :=
  Number.ceil (Number.div (Number.ofZ total) (limit req)).

(** [router.get('/')]. *)
Definition listProducts (req : Req.t) : B unit :=
  try_catch
    ('(products, total) ← await (findPage (skip req) (limit req));
     send
       (JObj [("data", JArr products);
              ("pagination",
               JObj [("page", Number.toJSON (page req));
                     ("limit", Number.toJSON (limit req));
                     ("total", Number.toJSON (Number.ofZ total));
                     ("pages", Number.toJSON (pages total req))])]))
    (fun err => handleProductError err "GET /api/products").

(** [router.get('/:id')]. *)
Definition getProduct (id : string) : B unit :=
  try_catch
    (if negb (isValidObjectId id) then
       status 400 ;; send (JObj [("error", JStr "Invalid product ID")])
     else
       product ← await (findById id);
       match product with
       | None => status 404 ;; send (JObj [("error", JStr "Product not found")])
       | Some doc => send doc
       end)
    (fun err => handleProductError err "GET /api/products/:id").

(** [router.delete('/:id')]. *)
Definition deleteProduct (id : string) : B unit :=
  try_catch
    (if negb (isValidObjectId id) then
       status 400 ;; send (JObj [("error", JStr "Invalid product ID")])
     else
       deleted ← await (findByIdAndDelete id);
       match deleted with
       | None => status 404 ;; send (JObj [("error", JStr "Product not found")])
       | Some _ =>
           status 200 ;;
           send (JObj [("message", JStr "Product deleted successfully")])
       end)
    (fun err => handleProductError err "DELETE /api/products/:id").

(** [app.get('/api/health')] of the back end. *)
Definition health : B unit :=
  try_catch
    (let dbConnected := bool_decide (readyState = 1) in
     status (if dbConnected then 200 else 503) ;;
     send
       (JObj [("ok", JBool true);
              ("timestamp", JStr now);
              ("database", JStr (if dbConnected then "connected" else "disconnected"));
              ("uptime", JNum uptime);
              ("nodeEnv", JStr (Js.or_else NODE_ENV "development"))]))
    (fun _ =>
       status 503 ;;
       send (JObj [("ok", JBool false); ("error", JStr "Service unavailable")])).

(** The back end's handler for unmatched requests. *)
Definition notFound (req : Req.t) : B unit :=
  status 404 ;;
  send (JObj [("error", JStr "Not found");
              ("path", JStr (Express.pathname (Req.url req)))]).

(** The back end's global error handler. *)
Definition errorHandler (err : Err) : B unit :=
  status 500 ;;
  send
    (JObj [("error",
            JStr (if bool_decide (NODE_ENV = Some "production")
                  then "Internal server error" else message err))]).

End Handlers.

(** A Mongoose validation error comes with its table of field errors. *)
Definition tabled (err : Err) : Prop :=
  name_is err "ValidationError" = true → errors err ≠ None.

(** A run that ended the response [r] with one write and nothing
    thrown. *)
Definition answersOnce (r : Res.t) (c : Completion unit) : Prop :=
  completes c = true ∧
  Res.headersSent (final c) = true ∧
  Res.jsonCalls (final c) = S (Res.jsonCalls r).

End Backend.

(* ===================================================================== *)
(** ** Sample errors, schemas and databases of the back end *)
(* ===================================================================== *)

Module Fixture.

Definition duplicate : Backend.Err :=
  Backend.mkErr (Some "MongoServerError") (Some (JNum 11000))
    "E11000 duplicate key error collection: ecommerce.products" None.

Definition invalid : Backend.Err :=
  Backend.mkErr (Some "ValidationError") None
    "Product validation failed: price: Path price is less than minimum"
    (Some [("price", "Path price (-1) is less than minimum allowed value (0).")]).

Definition cast : Backend.Err :=
  Backend.mkErr (Some "CastError") None "Cast to ObjectId failed" None.

Definition untabled : Backend.Err :=
  Backend.mkErr (Some "ValidationError") None "name is required" None.

Definition lost : Backend.Err :=
  Backend.mkErr (Some "MongoNetworkError") None
    "connect ECONNREFUSED mongo:27017" None.

Definition accept : option json → Backend.Validation :=
  fun body => Backend.mkValidation None body.

Definition reject : option json → Backend.Validation :=
  fun _ =>
    Backend.mkValidation
      (Some [Backend.mkDetail ["name"] "Name is required";
             Backend.mkDetail ["price"] "Price must be a number"])
      None.

Definition stored : json :=
  JObj [("_id", JStr "65f1c0ffee0123456789abcd");
        ("name", JStr "Widget"); ("price", JNum (999 # 100))].

Definition save : option json → option json → Backend.Settled json :=
  fun _ _ => Backend.Fulfilled stored.

Definition taken : option json → option json → Backend.Settled json :=
  fun _ _ => Backend.Rejected duplicate.

Definition found : string → Backend.Settled (option json) :=
  fun _ => Backend.Fulfilled (Some stored).

Definition missing : string → Backend.Settled (option json) :=
  fun _ => Backend.Fulfilled None.

Definition broken : string → Backend.Settled (option json) :=
  fun _ => Backend.Rejected lost.

(** [parseInt] on the few query values used below. *)
Definition parseInt (v : json) : Number.t :=
  match v with
  | JStr "0" => Number.ofZ 0
  | JStr "2" => Number.ofZ 2
  | JStr "-3" => Number.ofZ (-3)
  | JStr "500" => Number.ofZ 500
  | _ => Number.NaN
  end.

Definition listing (query : list (string * json)) : Req.t :=
  Sample.request "GET" "/api/products" query (Some (JObj [])).

(** The request [req] arriving with the headers [hs] instead of its
    own. *)
Definition withHeaders (req : Req.t) (hs : gmap string string) : Req.t :=
  Req.mk (Req.method req) (Req.url req) (Req.query req) hs (Req.body req)
    (Req.ip req) (Req.connection_remoteAddress req)
    (Req.socket_remoteAddress req) (Req.protocol req).

End Fixture.

(* ===================================================================== *)
(** ** Running the handlers *)
(* ===================================================================== *)

Import Express Gateway.

Ltac run := unfold mbind, M_bind, mret, M_ret, getRes, setRes, throw; simpl.

(** The status of every synthesized reply is one Node accepts. *)
Lemma synthesized_valid (b : Spec.Branch) :
  Spec.synthesized b = true → validStatus (fst (Spec.reply b)) = true.
Proof. destruct b; simpl; intros H; try reflexivity; discriminate H. Qed.

(** So is the status of the reply to an error that carries no
    response. *)
Lemma unrelayed_valid (e : Error) :
  response e = None → validStatus (fst (Spec.reply (Spec.classify e))) = true.
Proof.
  destruct e as [ax c m st r]. simpl. intros ->.
  unfold Spec.classify, Spec.rows, Spec.firstMatch, Spec.refused,
    Spec.timedOut, Spec.carried. simpl.
  destruct ax; simpl; [|reflexivity].
  destruct (code_is _ "ECONNREFUSED"); simpl; [reflexivity|].
  destruct (code_is _ "ETIMEDOUT" || code_is _ "ECONNABORTED"); reflexivity.
Qed.

(** The [catch] block, on a response that has not been started, answers
    with the reply of the first matching row of the table, provided the
    status of that reply is one Node accepts, which the statuses of the
    synthesized replies are. *)
Lemma catchBlock_open (e : Error) (w : World) :
  Res.headersSent (res w) = false →
  validStatus (fst (Spec.reply (Spec.classify e))) = true →
  catchBlock e w =
  Normal tt
    (Spec.answered (fst (Spec.reply (Spec.classify e)))
       (snd (Spec.reply (Spec.classify e))) w).
Proof.
  intros H. destruct e as [ax c m st r].
  unfold catchBlock, axiosBranches, Spec.classify, Spec.rows, Spec.firstMatch,
    Spec.refused, Spec.timedOut, Spec.carried.
  simpl.
  destruct ax; simpl.
  - destruct (code_is _ "ECONNREFUSED") eqn:E1; simpl.
    + intros _. run. rewrite H. reflexivity.
    + destruct (code_is _ "ETIMEDOUT" || code_is _ "ECONNABORTED") eqn:E2; simpl.
      * intros _. run. rewrite H. reflexivity.
      * destruct r as [r|]; simpl.
        -- intros Hv. unfold Express.status, Express.json. run.
           rewrite H, Hv. reflexivity.
        -- intros _. run. rewrite H. simpl. rewrite H. reflexivity.
  - intros _. run. rewrite H. simpl. rewrite H. reflexivity.
Qed.

Section Runs.

Variable BACKEND_URL : option string.
Variable axios : Config.t → Axios.Outcome.

(** A rejected call: one outbound call is recorded and the [catch] block
    answers. *)
Lemma proxyRequest_rejected (req : Req.t) (w : World) (e : Error) :
  Res.headersSent (res w) = false →
  validStatus (fst (Spec.reply (Spec.classify e))) = true →
  axios (config BACKEND_URL req) = Axios.Rejected e →
  proxyRequest BACKEND_URL axios req w =
  Normal tt
    (Spec.answered (fst (Spec.reply (Spec.classify e)))
       (snd (Spec.reply (Spec.classify e)))
       (mkWorld (res w) (outbound w ++ [config BACKEND_URL req]))).
Proof.
  intros Hopen Hvalid Hax.
  unfold proxyRequest, try_catch, await_axios, mbind, M_bind.
  rewrite Hax. apply catchBlock_open; [exact Hopen | exact Hvalid].
Qed.

(** A resolved call: the status and the two headers are written, then
    [res.json] runs on the result; when it throws, the [catch] block
    takes over. *)
Lemma proxyRequest_resolved_run (req : Req.t) (w : World) (r : Response.t) :
  Res.headersSent (res w) = false →
  axios (config BACKEND_URL req) = Axios.Resolved r →
  proxyRequest BACKEND_URL axios req w =
  try_catch (Express.json (Response.data r)) catchBlock
    (Spec.copied (config BACKEND_URL req) w r).
Proof.
  intros Hopen Hax.
  unfold proxyRequest, try_catch, await_axios, mbind, M_bind, Spec.copied.
  rewrite Hax. unfold headersToForward, forEach, Spec.relay.
  unfold Express.setHeader. run.
  destruct (Response.headers r !! "content-type") as [ct|];
    destruct (Response.headers r !! "content-length") as [cl|];
    repeat (simpl; rewrite ?Hopen;
            try match goal with
                | |- context [truthy ?v] => destruct (truthy v)
                end);
    reflexivity.
Qed.

(** A resolved call with a status Node accepts: status, the two relayed
    headers and the body are written, in this order, and nothing
    throws. *)
Lemma proxyRequest_resolved (req : Req.t) (w : World) (r : Response.t) :
  Res.headersSent (res w) = false →
  validStatus (Response.status r) = true →
  axios (config BACKEND_URL req) = Axios.Resolved r →
  proxyRequest BACKEND_URL axios req w =
  Normal tt
    (mkWorld
       (Res.mk (Response.status r)
          (framed (Response.status r) (Response.data r)
             (Spec.relay r "content-length"
                (Spec.relay r "content-type" (Res.headers (res w)))))
          true (Some (Response.data r)) (S (Res.jsonCalls (res w))))
       (outbound w ++ [config BACKEND_URL req])).
Proof.
  intros Hopen Hvalid Hax.
  rewrite (proxyRequest_resolved_run req w r Hopen Hax).
  unfold try_catch, Spec.copied, Express.json. run.
  rewrite Hopen, Hvalid. reflexivity.
Qed.

(** A resolved call with a status Node refuses: [res.json] throws, the
    [catch] block takes the error for an unclassified one and answers
    502 with a second [res.json] call. *)
Lemma proxyRequest_resolved_invalid (req : Req.t) (w : World) (r : Response.t) :
  Res.headersSent (res w) = false →
  validStatus (Response.status r) = false →
  axios (config BACKEND_URL req) = Axios.Resolved r →
  proxyRequest BACKEND_URL axios req w =
  Normal tt
    (mkWorld
       (Res.mk 502
          (framed 502 bad_gateway
             (framed (Response.status r) (Response.data r)
                (Spec.relay r "content-length"
                   (Spec.relay r "content-type" (Res.headers (res w))))))
          true (Some bad_gateway) (S (S (Res.jsonCalls (res w)))))
       (outbound w ++ [config BACKEND_URL req])).
Proof.
  intros Hopen Hvalid Hax.
  rewrite (proxyRequest_resolved_run req w r Hopen Hax).
  unfold try_catch, Spec.copied, Express.json. run.
  rewrite Hopen, Hvalid. simpl.
  unfold catchBlock, axiosBranches, ERR_HTTP_INVALID_STATUS_CODE. run.
  reflexivity.
Qed.

End Runs.

(** The two scenarios of the specification: a product is created, and a
    product is requested while the backend is stopped. *)
Example scenario_create :
  proxyRequest None (Axios.request (Sample.up Sample.created)) Sample.create initial
  = Normal tt
      (mkWorld
         (Res.mk 201
            {[ "content-type" := "application/json; charset=utf-8";
               "content-length" := "30" ]}
            true (Some Sample.widget) 1)
         [config None Sample.create]).
Proof. vm_compute. reflexivity. Qed.

Example scenario_backend_down :
  proxyRequest None (Axios.request Sample.down) Sample.get initial
  = Normal tt
      (mkWorld
         (Res.mk 503
            {[ "content-type" := "application/json; charset=utf-8";
               "content-length" := "121" ]}
            true (Some unavailable) 1)
         [config None Sample.get]).
Proof. vm_compute. reflexivity. Qed.

(** Two requests no handler of [gateway.js] takes: an OPTIONS request
    for the health path, which Express answers itself with the methods
    the path has routes for, and a request whose body the parser rejects,
    which is answered with the parser's status before any route runs.
    Neither calls [res.json] or the backend. *)
Example scenario_options_health :
  serve None (Axios.request Sample.down) "2025-01-01T00:00:00.000Z" (fun _ => None)
    (Sample.request "OPTIONS" "/health" [] (Some (JObj [])))
  = Normal tt
      (mkWorld
         (Res.mk 200
            {[ "allow" := "GET,HEAD";
               "content-type" := "text/html; charset=utf-8";
               "content-length" := "8" ]}
            true None 0)
         []).
Proof. vm_compute. reflexivity. Qed.

Example scenario_malformed_body :
  dispatch None (Axios.request Sample.down) "2025-01-01T00:00:00.000Z"
    (fun _ => None) (Failed 400) initial
  = Normal tt (mkWorld (Res.mk 400 ∅ true None 0) []).
Proof. reflexivity. Qed.

(* ===================================================================== *)
(** ** Failure translation *)
(* ===================================================================== *)

(** C1.  Whenever the outbound call fails, the forwarder completes with
    exactly one [res.json] call, and the reply is that of the first
    condition that holds, in this order: connection refused gives 503 with
    an [error] field; timeout or abort gives 504 with an [error] field; an
    error carrying an upstream response gives that response's status and
    body; anything else gives 502.  When the reply is a relayed upstream
    response, its status has to be one Node accepts; with the
    configuration [proxyRequest] builds, no failed call carries a
    response, so that this row is never the one that fires. *)
Theorem failure_classification (BACKEND_URL : option string)
    (axios : Config.t → Axios.Outcome) (req : Req.t) (w : World) (e : Error) :
  Res.headersSent (res w) = false →
  axios (config BACKEND_URL req) = Axios.Rejected e →
  (∀ up, Spec.classify e = Spec.Relayed up →
         validStatus (Response.status up) = true) →
  let c := proxyRequest BACKEND_URL axios req w in
  let r := res (final c) in
  completes c = true ∧
  Res.jsonCalls r = S (Res.jsonCalls (res w)) ∧
  (Spec.refused e = true →
   Res.statusCode r = 503 ∧
   ∃ body, Res.sent r = Some body ∧ is_Some (Spec.field "error" body)) ∧
  (Spec.refused e = false → Spec.timedOut e = true →
   Res.statusCode r = 504 ∧
   ∃ body, Res.sent r = Some body ∧ is_Some (Spec.field "error" body)) ∧
  (∀ up, Spec.refused e = false → Spec.timedOut e = false →
         Spec.carried e = Some up →
   Res.statusCode r = Response.status up ∧ Res.sent r = Some (Response.data up)) ∧
  (Spec.refused e = false → Spec.timedOut e = false → Spec.carried e = None →
   Res.statusCode r = 502 ∧ Res.sent r = Some bad_gateway).
Proof.
  intros Hopen Hax Hrelay c r. subst c r.
  assert (Hvalid : validStatus (fst (Spec.reply (Spec.classify e))) = true).
  { destruct (Spec.classify e) as [| |up|] eqn:Hc; try reflexivity.
    apply Hrelay. reflexivity. }
  rewrite (proxyRequest_rejected _ _ _ _ _ Hopen Hvalid Hax).
  unfold Spec.classify, Spec.rows, Spec.firstMatch. simpl.
  split; [reflexivity|]. split; [reflexivity|].
  split; [|split; [|split]].
  - intros Href. rewrite Href. simpl.
    split; [reflexivity|]. eexists. split; [reflexivity|]. simpl. eauto.
  - intros Href Htime. rewrite Href, Htime. simpl.
    split; [reflexivity|]. eexists. split; [reflexivity|]. simpl. eauto.
  - intros up Href Htime Hup. rewrite Href, Htime, Hup. simpl.
    split; reflexivity.
  - intros Href Htime Hup. rewrite Href, Htime, Hup. simpl.
    split; reflexivity.
Qed.

Lemma failure_classification_witness :
  Res.headersSent (res initial) = false ∧
  Axios.request Sample.down (config None Sample.get) = Axios.Rejected Sample.refusal ∧
  Res.statusCode (res (final (proxyRequest None (Axios.request Sample.down) Sample.get initial)))
  = 503.
Proof.
  split; [reflexivity|]. split; [reflexivity|].
  apply (failure_classification None (Axios.request Sample.down) Sample.get
           initial Sample.refusal eq_refl eq_refl); [|reflexivity].
  intros up H. discriminate H.
Defined.

(** C8.  The body of a synthesized failure reply (503, 504, 502) is one
    of three constant objects made of an [error] and a [message] string.
    Two failures that fall into the same branch produce the same status
    and the same body, whatever the errors' codes, messages, stacks, the
    requests or the backends were. *)
Theorem failure_bodies_constant (BACKEND_URL1 BACKEND_URL2 : option string)
    (axios1 axios2 : Config.t → Axios.Outcome) (req1 req2 : Req.t)
    (w1 w2 : World) (e1 e2 : Error) :
  Res.headersSent (res w1) = false →
  Res.headersSent (res w2) = false →
  axios1 (config BACKEND_URL1 req1) = Axios.Rejected e1 →
  axios2 (config BACKEND_URL2 req2) = Axios.Rejected e2 →
  Spec.classify e1 = Spec.classify e2 →
  Spec.synthesized (Spec.classify e1) = true →
  let r1 := res (final (proxyRequest BACKEND_URL1 axios1 req1 w1)) in
  let r2 := res (final (proxyRequest BACKEND_URL2 axios2 req2 w2)) in
  Res.statusCode r1 = Res.statusCode r2 ∧
  Res.sent r1 = Res.sent r2 ∧
  (Res.sent r1 = Some unavailable ∨ Res.sent r1 = Some timed_out
   ∨ Res.sent r1 = Some bad_gateway) ∧
  ∃ err msg : string,
    Res.sent r1 = Some (JObj [("error", JStr err); ("message", JStr msg)]).
Proof.
  intros Hopen1 Hopen2 Hax1 Hax2 Hsame Hsyn r1 r2. subst r1 r2.
  rewrite (proxyRequest_rejected _ _ _ _ _ Hopen1 (synthesized_valid _ Hsyn) Hax1).
  assert (Hsyn2 := Hsyn). rewrite Hsame in Hsyn2.
  rewrite (proxyRequest_rejected _ _ _ _ _ Hopen2 (synthesized_valid _ Hsyn2) Hax2).
  rewrite <- Hsame. simpl.
  split; [reflexivity|]. split; [reflexivity|].
  destruct (Spec.classify e1); simpl in *; try discriminate.
  - split; [auto|]. unfold unavailable. eauto.
  - split; [auto|]. unfold timed_out. eauto.
  - split; [auto|]. unfold bad_gateway. eauto.
Qed.

Lemma failure_bodies_constant_witness :
  Res.headersSent (res initial) = false ∧
  Spec.classify Sample.reset = Spec.classify Sample.dns ∧
  Spec.synthesized (Spec.classify Sample.reset) = true ∧
  Res.sent
    (res (final (proxyRequest None (fun _ => Axios.Rejected Sample.reset)
                   Sample.get initial)))
  = Res.sent
      (res (final (proxyRequest (Some "http://10.0.0.9:3847")
                     (fun _ => Axios.Rejected Sample.dns) Sample.create initial))).
Proof.
  repeat (split; [reflexivity|]).
  apply (failure_bodies_constant None (Some "http://10.0.0.9:3847")
           (fun _ => Axios.Rejected Sample.reset)
           (fun _ => Axios.Rejected Sample.dns)
           Sample.get Sample.create initial initial Sample.reset Sample.dns);
    reflexivity.
Defined.

(* ===================================================================== *)
(** ** Relaying the backend's answer *)
(* ===================================================================== *)

(** With the limits and the [validateStatus] of [config], a backend that
    answers in time and within the size limits resolves the call,
    whatever the status. *)
Lemma request_resolves (BACKEND_URL : option string) (wire : Axios.Wire)
    (req : Req.t) (r : Response.t) (ms bytes : Z) :
  Axios.reaction wire = Axios.Answers r ms bytes →
  ms ≤ 30000 → bytes ≤ 52428800 → Axios.request_bytes wire ≤ 52428800 →
  Axios.request wire (config BACKEND_URL req) = Axios.Resolved r.
Proof.
  intros Hre Hms Hbytes Hreq. unfold Axios.request, Axios.settle. simpl.
  rewrite Hre. change (50 * 1024 * 1024) with 52428800.
  destruct (Z.ltb_spec 52428800 (Axios.request_bytes wire)); [lia|].
  destruct (Z.ltb_spec 30000 ms); [lia|].
  destruct (Z.ltb_spec 52428800 bytes); [lia|].
  reflexivity.
Qed.

Lemma elem_of_headersToForward (name : string) :
  name ∈ headersToForward ↔ name = "content-type" ∨ name = "content-length".
Proof.
  unfold headersToForward. rewrite !elem_of_cons, elem_of_nil. tauto.
Qed.

(** The header table after the loop over [headersToForward], read at
    any name. *)
Lemma relayed_lookup (r : Response.t) (name : string) :
  Spec.relay r "content-length" (Spec.relay r "content-type" ∅) !! name =
  if bool_decide (name ∈ headersToForward) then
    match Response.headers r !! name with
    | Some v => if truthy v then Some v else None
    | None => None
    end
  else None.
Proof.
  unfold Spec.relay.
  destruct (decide (name = "content-type")) as [-> | Nct];
    [| destruct (decide (name = "content-length")) as [-> | Ncl]].
  - rewrite bool_decide_eq_true_2 by (apply elem_of_headersToForward; tauto).
    destruct (Response.headers r !! "content-type") as [ct|];
      [destruct (truthy ct)|];
      (destruct (Response.headers r !! "content-length") as [cl|];
       [destruct (truthy cl)|]); by simplify_map_eq.
  - rewrite bool_decide_eq_true_2 by (apply elem_of_headersToForward; tauto).
    destruct (Response.headers r !! "content-type") as [ct|];
      [destruct (truthy ct)|];
      (destruct (Response.headers r !! "content-length") as [cl|];
       [destruct (truthy cl)|]); by simplify_map_eq.
  - rewrite bool_decide_eq_false_2 by (rewrite elem_of_headersToForward; tauto).
    destruct (Response.headers r !! "content-type") as [ct|];
      [destruct (truthy ct)|];
      (destruct (Response.headers r !! "content-length") as [cl|];
       [destruct (truthy cl)|]); by simplify_map_eq.
Qed.

(** The content type after [res.json]: the one the table held with its
    charset set, or the one made up. *)
Lemma framed_content_type (c : Z) (v : Js.json) (h : gmap string string) :
  framed c v h !! "content-type" =
  if (c =? 204) || (c =? 304) then None
  else Some (match h !! "content-type" with
             | Some t => if truthy t then setCharset t
                         else "application/json; charset=utf-8"
             | None => "application/json; charset=utf-8"
             end).
Proof.
  unfold framed.
  destruct ((c =? 204) || (c =? 304)); [|destruct (c =? 205)];
    by simplify_map_eq.
Qed.

(** The content length after [res.json] is that of the text just
    written, whatever the header table held before. *)
Lemma framed_content_length (c : Z) (v : Js.json) (h : gmap string string) :
  framed c v h !! "content-length" =
  if (c =? 204) || (c =? 304) then None
  else if c =? 205 then Some "0"
  else Some (pretty (Js.byteLength (Js.stringify v))).
Proof.
  unfold framed.
  destruct ((c =? 204) || (c =? 304)); [|destruct (c =? 205)];
    by simplify_map_eq.
Qed.




(** For a status that carries a text, [res.json] sets the two framing
    headers and leaves the others. *)
Lemma framed_regular (c : Z) (v : Js.json) (h : gmap string string) :
  c ≠ 204 → c ≠ 205 → c ≠ 304 →
  framed c v h =
  <["content-length" := pretty (Js.byteLength (Js.stringify v))]>
    (<["content-type" :=
         match h !! "content-type" with
         | Some t => if truthy t then setCharset t
                     else "application/json; charset=utf-8"
         | None => "application/json; charset=utf-8"
         end]> h).
Proof.
  intros H204 H205 H304. unfold framed.
  destruct (Z.eqb_spec c 204); [contradiction|].
  destruct (Z.eqb_spec c 304); [contradiction|].
  destruct (Z.eqb_spec c 205); [contradiction|].
  reflexivity.
Qed.

(** The header table of the response to a backend answer whose status
    carries a text, read at any name. *)
Lemma relayed_framed_lookup (r : Response.t) (name : string) :
  Response.status r ≠ 204 → Response.status r ≠ 205 → Response.status r ≠ 304 →
  framed (Response.status r) (Response.data r)
    (Spec.relay r "content-length" (Spec.relay r "content-type" ∅)) !! name =
  if bool_decide (name = "content-length") then
    Some (pretty (Js.byteLength (Js.stringify (Response.data r))))
  else if bool_decide (name = "content-type") then
    Some (match Response.headers r !! "content-type" with
          | Some t => if truthy t then setCharset t
                      else "application/json; charset=utf-8"
          | None => "application/json; charset=utf-8"
          end)
  else None.
Proof.
  intros H204 H205 H304. rewrite framed_regular by assumption.
  rewrite (relayed_lookup r "content-type").
  rewrite bool_decide_eq_true_2 by (apply elem_of_headersToForward; tauto).
  destruct (decide (name = "content-length")) as [-> | Ncl].
  { rewrite bool_decide_eq_true_2 by reflexivity. by simplify_map_eq. }
  rewrite (bool_decide_eq_false_2 (name = "content-length")) by exact Ncl.
  rewrite lookup_insert_ne by congruence.
  destruct (decide (name = "content-type")) as [-> | Nct].
  { rewrite bool_decide_eq_true_2 by reflexivity. rewrite lookup_insert.
    destruct (Response.headers r !! "content-type") as [t|];
      [destruct (truthy t) eqn:Ht; rewrite ?Ht|]; reflexivity. }
  rewrite (bool_decide_eq_false_2 (name = "content-type")) by exact Nct.
  rewrite lookup_insert_ne by congruence.
  rewrite relayed_lookup.
  rewrite bool_decide_eq_false_2 by (rewrite elem_of_headersToForward; tauto).
  reflexivity.
Qed.




(* ===================================================================== *)
(** ** The outbound call *)
(* ===================================================================== *)

(** Writing to the response leaves the list of outbound calls as it
    is. *)
Lemma json_outbound (v : Js.json) (w : World) :
  outbound (final (Express.json v w)) = outbound w.
Proof.
  unfold Express.json. run.
  destruct (Res.headersSent (res w)); [reflexivity|].
  destruct (validStatus (Res.statusCode (res w))); reflexivity.
Qed.

Lemma catchBlock_outbound (e : Error) (w : World) :
  outbound (final (catchBlock e w)) = outbound w.
Proof.
  destruct e as [ax c m st r].
  unfold catchBlock, axiosBranches, Express.status, Express.json. run.
  repeat (match goal with
          | |- context [if ?b then _ else _] => destruct b
          | |- context [match ?o with Some _ => _ | None => _ end] => destruct o
          end; simpl);
    reflexivity.
Qed.

(** Whatever the backend does, the forwarder issues exactly one call, and
    it is the one [config] describes. *)
Lemma proxyRequest_outbound (BACKEND_URL : option string)
    (axios : Config.t → Axios.Outcome) (req : Req.t) (w : World) :
  Res.headersSent (res w) = false →
  outbound (final (proxyRequest BACKEND_URL axios req w))
  = (outbound w ++ [config BACKEND_URL req])%list.
Proof.
  intros Hopen.
  destruct (axios (config BACKEND_URL req)) as [r | e] eqn:Hax.
  - rewrite (proxyRequest_resolved_run _ _ _ _ r Hopen Hax).
    unfold try_catch.
    pose proof (json_outbound (Response.data r)
                  (Spec.copied (config BACKEND_URL req) w r)) as Hj.
    destruct (Express.json (Response.data r) _) as [u w' | e w'];
      simpl in Hj; [exact Hj|].
    rewrite catchBlock_outbound. exact Hj.
  - unfold proxyRequest, try_catch, await_axios, mbind, M_bind.
    rewrite Hax. rewrite catchBlock_outbound. reflexivity.
Qed.

Lemma headers_lookup_other (req : Req.t) (name : string) :
  name ≠ "Content-Type" → name ≠ "X-Forwarded-For" →
  name ≠ "X-Forwarded-Proto" →
  headers req !! name = None.
Proof.
  intros N1 N2 N3. unfold headers.
  destruct (hasBody req); by simplify_map_eq.
Qed.

Lemma remove_dups_nonempty (x : string) (l : list string) :
  (0 < length (remove_dups (x :: l)))%nat.
Proof.
  assert (Hin : x ∈ remove_dups (x :: l)).
  { apply elem_of_remove_dups. apply list_elem_of_here. }
  destruct (remove_dups (x :: l)); [|simpl; lia].
  by apply elem_of_nil in Hin.
Qed.

(** The request head, read at any name. *)
Lemma requestHeaders_lookup (cfg : Config.t) (name : string) :
  Axios.requestHeaders cfg !! name =
  match Config.headers cfg !! name ≫= id with
  | Some v => Some v
  | None =>
      if bool_decide (name = "Content-Type") && Axios.isObject (Config.data cfg)
      then Some "application/json" else None
  end.
Proof.
  unfold Axios.requestHeaders, Axios.defined.
  rewrite <- (lookup_omap id (Config.headers cfg) name).
  destruct (omap id (Config.headers cfg) !! "Content-Type") as [t|] eqn:Hct.
  - destruct (omap id (Config.headers cfg) !! name) as [v|] eqn:Hv;
      [reflexivity|].
    rewrite bool_decide_eq_false_2; [reflexivity|].
    intros ->. congruence.
  - destruct (decide (name = "Content-Type")) as [-> | Hne].
    + rewrite Hct, bool_decide_eq_true_2 by reflexivity. simpl.
      destruct (Axios.isObject (Config.data cfg)); [by simplify_map_eq|].
      exact Hct.
    + rewrite (bool_decide_eq_false_2 _ Hne). simpl.
      destruct (Axios.isObject (Config.data cfg));
        [rewrite lookup_insert_ne by congruence|];
        destruct (omap id (Config.headers cfg) !! name); reflexivity.
Qed.




(** The target URL is the base URL followed by the request's URL as it
    came in, query string included, and the parsed query goes out again
    as [params]. *)
Lemma config_url_params (BACKEND_URL : option string) (req : Req.t) :
  Config.url (config BACKEND_URL req)
  = Js.or_else BACKEND_URL "http://backend:3847" +:+ Req.url req ∧
  Config.params (config BACKEND_URL req) = Req.query req.
Proof. split; reflexivity. Qed.

(** C4, at [GET /api/products?page=2]: the one outbound call carries the
    query string inside its URL and the same parameter again in
    [params], so [page] goes out twice. *)
Theorem query_parameter_sent_twice :
  ∃ cfg : Config.t,
    outbound (final (proxyRequest None (Axios.request (Sample.up Sample.not_found))
                       Sample.list_page initial)) = [cfg] ∧
    Req.url Sample.list_page = "/api/products?page=2" ∧
    Req.query Sample.list_page = [("page", JStr "2")] ∧
    Config.url cfg = "http://backend:3847/api/products?page=2" ∧
    Config.params cfg = [("page", JStr "2")] ∧
    Axios.transmissions "page" cfg = 2%nat.
Proof.
  eexists. split; [vm_compute; reflexivity|].
  repeat (split; [reflexivity|]). vm_compute. reflexivity.
Qed.

(* ===================================================================== *)
(** ** Limits of the outbound call *)
(* ===================================================================== *)

(** C5 as stated fails for the size limit: a response body one byte over
    50 MiB makes the call fail with [ERR_BAD_RESPONSE], which the [catch]
    block answers with 502, not with the 504 of a timeout. *)
Lemma oversize_response_is_bad_gateway :
  let wire := Sample.huge Sample.created in
  let c := proxyRequest None (Axios.request wire) Sample.create initial in
  Axios.reaction wire = Axios.Answers Sample.created 12 (50 * 1024 * 1024 + 1) ∧
  Axios.request wire (config None Sample.create)
  = Axios.Rejected
      (Axios.AxiosError "ERR_BAD_RESPONSE"
         "maxContentLength size of 52428800 exceeded" None) ∧
  Res.statusCode (res (final c)) = 502 ∧
  Res.statusCode (res (final c)) ≠ 504.
Proof. repeat split; try reflexivity. discriminate. Qed.

(** C5, amended.  The call is configured with a 30000 ms timeout and
    50 MiB limits on both bodies.  A call that outlives the timeout is
    answered with 504.  A body over its limit fails the call, no part of
    the upstream body is relayed, and the client gets 502. *)
Theorem limits_and_their_replies (BACKEND_URL : option string)
    (wire : Axios.Wire) (req : Req.t) (w : World) :
  Res.headersSent (res w) = false →
  let cfg := config BACKEND_URL req in
  let r := res (final (proxyRequest BACKEND_URL (Axios.request wire) req w)) in
  Config.timeout cfg = 30 * 1000 ∧
  Config.maxContentLength cfg = 50 * 1024 * 1024 ∧
  Config.maxBodyLength cfg = 50 * 1024 * 1024 ∧
  (Axios.request_bytes wire ≤ 50 * 1024 * 1024 →
   Axios.reaction wire = Axios.NeverAnswers
   ∨ (∃ up ms bytes, Axios.reaction wire = Axios.Answers up ms bytes ∧ 30 * 1000 < ms) →
   Res.statusCode r = 504 ∧ Res.sent r = Some timed_out) ∧
  (50 * 1024 * 1024 < Axios.request_bytes wire
   ∨ (∃ up ms bytes, Axios.reaction wire = Axios.Answers up ms bytes
                     ∧ ms ≤ 30 * 1000 ∧ 50 * 1024 * 1024 < bytes) →
   (∃ e, Axios.request wire cfg = Axios.Rejected e) ∧
   Res.statusCode r = 502 ∧ Res.sent r = Some bad_gateway).
Proof.
  intros Hopen cfg r. subst cfg r.
  split; [reflexivity|]. split; [reflexivity|]. split; [reflexivity|].
  split.
  - intros Hreq Hlate.
    assert (Hax : Axios.request wire (config BACKEND_URL req)
                  = Axios.Rejected (Axios.timeoutError (config BACKEND_URL req))).
    { unfold Axios.request. simpl.
      destruct (Z.ltb_spec (50 * 1024 * 1024) (Axios.request_bytes wire)); [lia|].
      destruct Hlate as [-> | (up & ms & bytes & -> & Hms)]; [reflexivity|].
      destruct (Z.ltb_spec 30000 ms); [reflexivity | lia]. }
    rewrite (proxyRequest_rejected _ _ _ _ _ Hopen
               (unrelayed_valid (Axios.timeoutError _) eq_refl) Hax).
    split; reflexivity.
  - intros Hbig.
    assert (Hax : ∃ c msg, Axios.request wire (config BACKEND_URL req)
                           = Axios.Rejected (Axios.AxiosError c msg None)
                           ∧ (c = "ERR_BAD_REQUEST" ∨ c = "ERR_BAD_RESPONSE")).
    { unfold Axios.request. simpl.
      destruct Hbig as [Hreq | (up & ms & bytes & Hre & Hms & Hbytes)].
      - destruct (Z.ltb_spec (50 * 1024 * 1024) (Axios.request_bytes wire)); [|lia].
        eauto.
      - destruct (Z.ltb_spec (50 * 1024 * 1024) (Axios.request_bytes wire)); [eauto|].
        rewrite Hre.
        destruct (Z.ltb_spec 30000 ms); [lia|].
        destruct (Z.ltb_spec (50 * 1024 * 1024) bytes); [|lia].
        eauto. }
    destruct Hax as (c & msg & Hax & Hc).
    rewrite (proxyRequest_rejected _ _ _ _ _ Hopen
               (unrelayed_valid (Axios.AxiosError c msg None) eq_refl) Hax).
    split; [eauto|].
    destruct Hc as [-> | ->]; split; reflexivity.
Qed.

Lemma limits_and_their_replies_witness :
  Res.headersSent (res initial) = false ∧
  Res.statusCode
    (res (final (proxyRequest None (Axios.request (Sample.slow Sample.created))
                   Sample.create initial))) = 504.
Proof.
  split; [reflexivity|].
  apply (limits_and_their_replies None (Sample.slow Sample.created) Sample.create
           initial eq_refl).
  - simpl. lia.
  - right. exists Sample.created, 30001, 42. split; [reflexivity | lia].
Defined.

(* ===================================================================== *)
(** ** Writing the response once *)
(* ===================================================================== *)

(** The handler is its [try] block under its [catch] block. *)
Lemma proxyRequest_try_catch (BACKEND_URL : option string)
    (axios : Config.t → Axios.Outcome) (req : Req.t) :
  proxyRequest BACKEND_URL axios req
  = try_catch (tryBlock BACKEND_URL axios req) catchBlock.
Proof. reflexivity. Qed.

(** The [try] block on a resolved call: what is left to run after the
    status and the two headers are set is the [res.json] call. *)
Lemma tryBlock_resolved (BACKEND_URL : option string)
    (axios : Config.t → Axios.Outcome) (req : Req.t) (w : World)
    (r : Response.t) :
  Res.headersSent (res w) = false →
  axios (config BACKEND_URL req) = Axios.Resolved r →
  tryBlock BACKEND_URL axios req w
  = Express.json (Response.data r) (Spec.copied (config BACKEND_URL req) w r).
Proof.
  intros Hopen Hax.
  unfold tryBlock, await_axios, mbind, M_bind, Spec.copied.
  rewrite Hax. unfold headersToForward, forEach, Spec.relay.
  unfold Express.setHeader. run.
  destruct (Response.headers r !! "content-type") as [ct|];
    destruct (Response.headers r !! "content-length") as [cl|];
    repeat (simpl; rewrite ?Hopen;
            try match goal with
                | |- context [truthy ?v] => destruct (truthy v)
                end);
    reflexivity.
Qed.

(** [res.json] on a response that has not been started either sends it
    or throws before anything is sent. *)
Lemma json_open (v : Js.json) (w : World) :
  Res.headersSent (res w) = false →
  match Express.json v w with
  | Normal _ w' =>
      Res.headersSent (res w') = true ∧ Res.sent (res w') = Some v
      ∧ Res.jsonCalls (res w') = S (Res.jsonCalls (res w))
  | Thrown e w' =>
      Res.headersSent (res w') = false ∧ Res.sent (res w') = Res.sent (res w)
      ∧ Res.jsonCalls (res w') = S (Res.jsonCalls (res w))
  end.
Proof.
  intros Hopen. unfold Express.json. run. rewrite Hopen.
  destruct (validStatus (Res.statusCode (res w))); simpl; auto.
Qed.

(** The [catch] block on a response that has not been started either
    sends a reply or throws before anything is sent. *)
Lemma catchBlock_sends_or_throws (e : Error) (w : World) :
  Res.headersSent (res w) = false →
  match catchBlock e w with
  | Normal _ w' =>
      Res.headersSent (res w') = true ∧ is_Some (Res.sent (res w'))
      ∧ Res.jsonCalls (res w') = S (Res.jsonCalls (res w))
  | Thrown _ w' => Res.headersSent (res w') = false
  end.
Proof.
  intros Hopen. destruct e as [ax c m st r].
  unfold catchBlock, axiosBranches. simpl.
  destruct ax; simpl.
  - destruct (code_is _ "ECONNREFUSED"); simpl.
    + run. rewrite Hopen. simpl. eauto.
    + destruct (code_is _ "ETIMEDOUT" || code_is _ "ECONNABORTED"); simpl.
      * run. rewrite Hopen. simpl. eauto.
      * destruct r as [r|]; simpl.
        -- unfold Express.status, Express.json. run. rewrite Hopen.
           destruct (validStatus (Response.status r)); simpl; eauto.
        -- run. rewrite Hopen. simpl. rewrite Hopen. simpl. eauto.
  - run. rewrite Hopen. simpl. rewrite Hopen. simpl. eauto.
Qed.

(** C7.  In every run of the forwarder on the response Express hands it,
    an error reaches the [catch] block only while the response has not
    been started: the call to the backend is awaited before anything is
    written, and a [res.json] call that throws does so before it sends.
    No failure branch, the 503, the 504, the relaying and the 502 one,
    therefore ever runs on a started response.  The handler ends with one
    response sent, or it throws with none sent.  The 502 branch carries a
    guard of its own on top of this: entered on a started response, it
    leaves the response as it is. *)
Theorem no_write_after_start (BACKEND_URL : option string)
    (axios : Config.t → Axios.Outcome) (req : Req.t) (w : World) :
  Res.headersSent (res w) = false →
  (∀ e w', tryBlock BACKEND_URL axios req w = Thrown e w' →
           Res.headersSent (res w') = false
           ∧ Res.sent (res w') = Res.sent (res w)) ∧
  (∀ w', proxyRequest BACKEND_URL axios req w = Normal tt w' →
         Res.headersSent (res w') = true ∧ is_Some (Res.sent (res w'))
         ∧ (Res.jsonCalls (res w') ≤ 2 + Res.jsonCalls (res w))%nat) ∧
  (∀ e w', proxyRequest BACKEND_URL axios req w = Thrown e w' →
           Res.headersSent (res w') = false) ∧
  (∀ e w', Res.headersSent (res w') = true →
           Spec.classify e = Spec.BadGateway →
           catchBlock e w' = Normal tt w').
Proof.
  intros Hopen.
  assert (Htry : ∀ e w', tryBlock BACKEND_URL axios req w = Thrown e w' →
                         Res.headersSent (res w') = false
                         ∧ Res.sent (res w') = Res.sent (res w)).
  { intros e w'.
    destruct (axios (config BACKEND_URL req)) as [r | e0] eqn:Hax.
    - rewrite (tryBlock_resolved _ _ _ _ r Hopen Hax).
      pose proof (json_open (Response.data r)
                    (Spec.copied (config BACKEND_URL req) w r) Hopen) as Hj.
      intros Heq. rewrite Heq in Hj. destruct Hj as (H1 & H2 & _).
      split; [exact H1 | exact H2].
    - unfold tryBlock, await_axios, mbind, M_bind. rewrite Hax.
      intros [= <- <-]. simpl. auto. }
  split; [exact Htry|].
  split; [|split].
  - intros w'. rewrite proxyRequest_try_catch. unfold try_catch.
    destruct (tryBlock BACKEND_URL axios req w) as [u w1 | e1 w1] eqn:Hrun.
    + destruct (axios (config BACKEND_URL req)) as [r | e0] eqn:Hax.
      * rewrite (tryBlock_resolved _ _ _ _ r Hopen Hax) in Hrun.
        pose proof (json_open (Response.data r)
                      (Spec.copied (config BACKEND_URL req) w r) Hopen) as Hj.
        rewrite Hrun in Hj. destruct Hj as (H1 & H2 & H3).
        destruct u. intros [= <-]. split; [exact H1|]. split; [rewrite H2; eauto|].
        rewrite H3. simpl. lia.
      * unfold tryBlock, await_axios, mbind, M_bind in Hrun.
        rewrite Hax in Hrun. discriminate Hrun.
    + destruct (Htry e1 w1 eq_refl) as [Hopen1 _].
      assert (Hcalls : (Res.jsonCalls (res w1) ≤ 1 + Res.jsonCalls (res w))%nat).
      { destruct (axios (config BACKEND_URL req)) as [r | e0] eqn:Hax.
        - rewrite (tryBlock_resolved _ _ _ _ r Hopen Hax) in Hrun.
          pose proof (json_open (Response.data r)
                        (Spec.copied (config BACKEND_URL req) w r) Hopen) as Hj.
          rewrite Hrun in Hj. destruct Hj as (_ & _ & H3).
          rewrite H3. simpl. lia.
        - unfold tryBlock, await_axios, mbind, M_bind in Hrun.
          rewrite Hax in Hrun. injection Hrun as _ <-. simpl. lia. }
      pose proof (catchBlock_sends_or_throws e1 w1 Hopen1) as Hc.
      intros Heq. rewrite Heq in Hc. destruct Hc as (H1 & H2 & H3).
      split; [exact H1|]. split; [exact H2|]. rewrite H3. lia.
  - intros e w'. rewrite proxyRequest_try_catch. unfold try_catch.
    destruct (tryBlock BACKEND_URL axios req w) as [u w1 | e1 w1] eqn:Hrun;
      [discriminate|].
    destruct (Htry e1 w1 eq_refl) as [Hopen1 _].
    pose proof (catchBlock_sends_or_throws e1 w1 Hopen1) as Hc.
    intros Heq. rewrite Heq in Hc. exact Hc.
  - intros e w' Hsent. destruct e as [ax c m st r].
    unfold Spec.classify, Spec.rows, Spec.firstMatch, Spec.refused,
      Spec.timedOut, Spec.carried, catchBlock, axiosBranches.
    simpl. destruct ax; simpl.
    + destruct (code_is _ "ECONNREFUSED"); simpl; [discriminate|].
      destruct (code_is _ "ETIMEDOUT" || code_is _ "ECONNABORTED"); simpl;
        [discriminate|].
      destruct r as [r|]; simpl; [discriminate|].
      intros _. run. rewrite Hsent. reflexivity.
    + intros _. run. rewrite Hsent. reflexivity.
Qed.

Lemma no_write_after_start_witness :
  Res.headersSent (res initial) = false ∧
  tryBlock None (Axios.request Sample.down) Sample.get initial
  = Thrown Sample.refusal (mkWorld Res.fresh [config None Sample.get]) ∧
  Res.headersSent
    (res (mkWorld Res.fresh [config None Sample.get])) = false.
Proof.
  split; [reflexivity|]. split; [reflexivity|].
  apply (proj1 (no_write_after_start None (Axios.request Sample.down) Sample.get
                  initial eq_refl)
           Sample.refusal (mkWorld Res.fresh [config None Sample.get])).
  reflexivity.
Defined.

(* ===================================================================== *)
(** ** Routing *)
(* ===================================================================== *)



(** C10 as stated fails at the path [/api/]: nothing follows the slash,
    yet the route matches and the request is forwarded (the captured part
    being empty, no decoding takes place, so even a [decodeURIComponent]
    that always throws does not stop it). *)
Lemma bare_prefix_with_slash_is_forwarded :
  let req := Sample.request "GET" "/api/" [] (Some (JObj [])) in
  let c := serve None (Axios.request Sample.down) "2025-01-01T00:00:00.000Z"
             (fun _ => None) req in
  pathname (Req.url req) = "/api/" ∧
  match_api_star (pathname (Req.url req)) = Some EmptyString ∧
  outbound (final c) = [config None req] ∧
  Config.url (config None req) = "http://backend:3847/api/".
Proof. repeat split. Qed.

(** C10, amended.  A request whose path is exactly [/api] matches no
    route: it is answered with 404 and no outbound call is made.  The
    requests that reach the forwarder are those whose path starts with
    [/api/], compared without regard to case, whether or not anything
    follows, provided what follows percent-decodes; each of them causes
    exactly one outbound call.  A request whose parsed body is the empty
    object goes out without a [Content-Type] in its header table. *)
Theorem api_routing (BACKEND_URL : option string)
    (axios : Config.t → Axios.Outcome) (now : string)
    (decodeURIComponent : string → option string) (req : Req.t) :
  let c := serve BACKEND_URL axios now decodeURIComponent req in
  let path := pathname (Req.url req) in
  let rest := String.substring 5 (String.length path - 5) path in
  (path = "/api" → outbound (final c) = [] ∧ Res.statusCode (res (final c)) = 404) ∧
  outbound (final c)
  = (if String.prefix "/api/" (lower path)
        && bool_decide (rest = EmptyString ∨ is_Some (decodeURIComponent rest))
     then [config BACKEND_URL req] else []) ∧
  (Req.body req = Some (JObj []) →
   hasBody req = false ∧
   Config.headers (config BACKEND_URL req) !! "Content-Type" = None).
Proof.
  intros c path rest. subst c path rest.
  set (path := pathname (Req.url req)).
  set (rest := String.substring 5 (String.length path - 5) path).
  assert (Hroute :
    outbound (final (serve BACKEND_URL axios now decodeURIComponent req))
    = if String.prefix "/api/" (lower path)
         && bool_decide (rest = EmptyString ∨ is_Some (decodeURIComponent rest))
      then [config BACKEND_URL req] else []).
  { unfold serve, app, match_api_star. fold path.
    destruct (String.prefix "/api/" (lower path)); simpl.
    - fold rest. unfold decode_param.
      destruct rest as [|a rest'] eqn:Hrest.
      + rewrite bool_decide_eq_true_2 by (left; reflexivity).
        rewrite proxyRequest_outbound by reflexivity. reflexivity.
      + destruct (decodeURIComponent (String a rest')) as [d|] eqn:Hd.
        * rewrite bool_decide_eq_true_2 by (right; eauto).
          rewrite proxyRequest_outbound by reflexivity. reflexivity.
        * rewrite bool_decide_eq_false_2; [reflexivity|].
          intros [Hempty | [d Hsome]]; discriminate.
    - destruct ((bool_decide (Req.method req = "GET")
                 || bool_decide (Req.method req = "HEAD"))
                && matches_health path); [reflexivity|].
      destruct (bool_decide (Req.method req = "OPTIONS") && matches_health path);
        reflexivity. }
  split; [|split].
  - intros Hpath. rewrite Hroute. unfold serve, app, match_api_star, matches_health.
    fold path. rewrite Hpath. simpl. rewrite !andb_false_r. split; reflexivity.
  - exact Hroute.
  - intros Hbody. unfold config, headers, hasBody. simpl. rewrite Hbody. simpl.
    split; [reflexivity | by simplify_map_eq].
Qed.

(* ===================================================================== *)
(** ** The back end's replies *)
(* ===================================================================== *)

(** [res.json(v)] and [res.status(c).json(v)] on a response that has not
    been started, for a status Node accepts. *)
Lemma send_open (v : Js.json) (r : Res.t) :
  Res.headersSent r = false →
  validStatus (Res.statusCode r) = true →
  Backend.send v r
  = Backend.Done tt
      (Res.mk (Res.statusCode r) (framed (Res.statusCode r) v (Res.headers r))
         true (Some v) (S (Res.jsonCalls r))).
Proof.
  intros Hopen Hvalid. unfold Backend.send, Backend.lift, Express.json. run.
  rewrite Hopen, Hvalid. reflexivity.
Qed.

Lemma reply_open (c : Z) (v : Js.json) (r : Res.t) :
  Res.headersSent r = false →
  validStatus c = true →
  (Backend.status c ;; Backend.send v) r
  = Backend.Done tt
      (Res.mk c (framed c v (Res.headers r)) true (Some v) (S (Res.jsonCalls r))).
Proof.
  intros Hopen Hvalid. unfold mbind, Backend.B_bind, Backend.status, Backend.lift.
  simpl. rewrite send_open by assumption. reflexivity.
Qed.

Ltac brun :=
  unfold Backend.try_catch, Backend.await, Backend.raise, mbind, mret,
    Backend.B_bind, Backend.B_ret;
  cbv beta iota.

Lemma reply_run (c : Z) (v : Js.json) (r : Res.t) :
  Res.headersSent r = false →
  validStatus c = true →
  match Backend.status c r with
  | Backend.Done _ r' => Backend.send v r'
  | Backend.Raised e r' => Backend.Raised e r'
  end
  = Backend.Done tt
      (Res.mk c (framed c v (Res.headers r)) true (Some v) (S (Res.jsonCalls r))).
Proof. intros Hopen Hvalid. apply (reply_open c v r Hopen Hvalid). Qed.

(** The reply of [handleProductError] on a response that has not been
    started. *)
Lemma handleProductError_open (err : Backend.Err) (endpoint : string)
    (r : Res.t) :
  Res.headersSent r = false →
  Backend.tabled err →
  ∃ (c : Z) (body : Js.json) (e : string),
    Backend.handleProductError err endpoint r
    = Backend.Done tt
        (Res.mk c (framed c body (Res.headers r)) true (Some body)
           (S (Res.jsonCalls r)))
    ∧ (c = 400 ∨ c = 409 ∨ c = 500)
    ∧ Backend.prop "error" body = Some (JStr e).
Proof.
  intros Hopen Htable. unfold Backend.handleProductError.
  destruct (Backend.name_is err "ValidationError") eqn:Hval.
  - destruct (Backend.errors err) as [table|] eqn:Herr;
      [|exfalso; by apply Htable].
    rewrite reply_open by (exact Hopen || reflexivity). eauto 10.
  - destruct (Backend.duplicateKey err);
      [|destruct (Backend.name_is err "CastError")];
      rewrite reply_open by (exact Hopen || reflexivity); eauto 10.
Qed.

(** An error that is none of the three kinds singled out is answered
    500. *)
Lemma handleProductError_internal (err : Backend.Err) (endpoint : string)
    (r : Res.t) :
  Res.headersSent r = false →
  Backend.name_is err "ValidationError" = false →
  Backend.duplicateKey err = false →
  Backend.name_is err "CastError" = false →
  Backend.handleProductError err endpoint r
  = Backend.Done tt
      (Res.mk 500
         (framed 500 (JObj [("error", JStr "Internal server error")])
            (Res.headers r))
         true
         (Some (JObj [("error", JStr "Internal server error")]))
         (S (Res.jsonCalls r))).
Proof.
  intros Hopen Hval Hdup Hcast. unfold Backend.handleProductError.
  rewrite Hval, Hdup, Hcast. apply reply_open; [exact Hopen | reflexivity].
Qed.

(** X1.  On a response that has not been started, [handleProductError]
    completes with exactly one write, a status among 400, 409 and 500 and
    a body with an [error] field, for every error whose validation table
    is present when its name is [ValidationError]. *)
Theorem handleProductError_answers (err : Backend.Err) (endpoint : string)
    (r : Res.t) :
  Res.headersSent r = false →
  Backend.tabled err →
  let c := Backend.handleProductError err endpoint r in
  Backend.answersOnce r c ∧
  (Res.statusCode (Backend.final c) = 400
   ∨ Res.statusCode (Backend.final c) = 409
   ∨ Res.statusCode (Backend.final c) = 500) ∧
  ∃ body e, Res.sent (Backend.final c) = Some body
            ∧ Backend.prop "error" body = Some (JStr e).
Proof.
  intros Hopen Htable c. subst c.
  destruct (handleProductError_open err endpoint r Hopen Htable)
    as (c & body & e & -> & Hc & He).
  unfold Backend.answersOnce. simpl. eauto 10.
Qed.

Lemma handleProductError_answers_witness :
  Res.headersSent Res.fresh = false ∧
  Backend.tabled Fixture.duplicate ∧
  Backend.answersOnce Res.fresh
    (Backend.handleProductError Fixture.duplicate "POST /api/products" Res.fresh).
Proof.
  split; [reflexivity|]. split; [intros H; discriminate H|].
  apply (handleProductError_answers Fixture.duplicate "POST /api/products"
           Res.fresh eq_refl).
  intros H. discriminate H.
Defined.

(** X2.  Neither the error's message nor the endpoint label reaches the
    client: two errors that agree on name, code and validation table get
    the same reply from [handleProductError], on any response. *)
Theorem handleProductError_hides_message (err : Backend.Err)
    (msg endpoint endpoint' : string) (r : Res.t) :
  Backend.handleProductError
    (Backend.mkErr (Backend.name err) (Backend.code err) msg (Backend.errors err))
    endpoint' r
  = Backend.handleProductError err endpoint r.
Proof.
  destruct err as [n c m t]. unfold Backend.handleProductError.
  unfold Backend.name_is, Backend.duplicateKey. simpl.
  destruct n as [n|]; [destruct (bool_decide (n = "ValidationError"))|];
    reflexivity.
Qed.

(** X3.  A [ValidationError] without a table of field errors makes
    [handleProductError] throw a [TypeError] after it has set the status
    to 400: nothing is sent, whatever else the error holds. *)
Theorem untabled_validation_error_throws (err : Backend.Err)
    (endpoint : string) (r : Res.t) :
  Backend.name err = Some "ValidationError" →
  Backend.errors err = None →
  let c := Backend.handleProductError err endpoint r in
  Backend.completes c = false ∧
  Res.statusCode (Backend.final c) = 400 ∧
  Res.headersSent (Backend.final c) = Res.headersSent r ∧
  Res.sent (Backend.final c) = Res.sent r ∧
  Res.jsonCalls (Backend.final c) = Res.jsonCalls r.
Proof.
  intros Hname Herr c. subst c.
  unfold Backend.handleProductError, Backend.name_is.
  rewrite Hname, Herr. simpl.
  repeat split.
Qed.

Lemma untabled_validation_error_throws_witness :
  Backend.name Fixture.untabled = Some "ValidationError" ∧
  Backend.errors Fixture.untabled = None ∧
  Backend.completes
    (Backend.handleProductError Fixture.untabled "POST /api/products" Res.fresh)
  = false.
Proof.
  split; [reflexivity|]. split; [reflexivity|].
  apply (untabled_validation_error_throws Fixture.untabled "POST /api/products"
           Res.fresh); reflexivity.
Defined.

(** X4.  A body the schema rejects is answered 400 with one
    [{field, message}] entry per Joi detail, in order, and the rest of the
    route does not run: the outcome is the same whatever follows the
    middleware. *)
Theorem validation_failure_stops_route
    (schema : option Js.json → Backend.Validation)
    (next next' : Req.t → Backend.B unit) (req : Req.t) (r : Res.t)
    (details : list Backend.Detail) :
  Res.headersSent r = false →
  Backend.error (schema (Req.body req)) = Some details →
  let c := Backend.validateRequest schema next req r in
  c = Backend.validateRequest schema next' req r ∧
  Backend.answersOnce r c ∧
  Res.statusCode (Backend.final c) = 400 ∧
  ∃ entries,
    Res.sent (Backend.final c)
    = Some (JObj [("error", JStr "Validation failed"); ("details", JArr entries)])
    ∧ length entries = length details
    ∧ ∀ i d, details !! i = Some d →
        entries !! i
        = Some (JObj [("field", JStr (Backend.join "." (Backend.path d)));
                      ("message", JStr (Backend.detail_message d))]).
Proof.
  intros Hopen Herr c. subst c. unfold Backend.validateRequest.
  rewrite Herr. rewrite reply_open by (exact Hopen || reflexivity).
  split; [reflexivity|]. split; [repeat split|]. split; [reflexivity|].
  eexists. split; [reflexivity|]. split; [apply length_map|].
  intros i d Hd. rewrite list_lookup_fmap, Hd. reflexivity.
Qed.

Lemma validation_failure_stops_route_witness :
  Res.headersSent Res.fresh = false ∧
  Backend.error (Fixture.reject (Req.body Sample.create))
  = Some [Backend.mkDetail ["name"] "Name is required";
          Backend.mkDetail ["price"] "Price must be a number"] ∧
  Res.statusCode
    (Backend.final
       (Backend.validateRequest Fixture.reject
          (Backend.createProduct Fixture.save) Sample.create Res.fresh)) = 400.
Proof.
  split; [reflexivity|]. split; [reflexivity|].
  apply (validation_failure_stops_route Fixture.reject
           (Backend.createProduct Fixture.save)
           (Backend.createProduct Fixture.taken) Sample.create Res.fresh
           [Backend.mkDetail ["name"] "Name is required";
            Backend.mkDetail ["price"] "Price must be a number"]);
    reflexivity.
Defined.

(* ===================================================================== *)
(** ** The product routes *)
(* ===================================================================== *)

Lemma destructure_object (v : Js.json) (r : Res.t) :
  v ≠ JNull →
  Backend.destructure (Some v) r
  = Backend.Done (Backend.prop "name" v, Backend.prop "price" v) r.
Proof. intros Hv. destruct v; try reflexivity. congruence. Qed.

(** X5.  [POST /]: when the schema accepts the body, the product saved is
    built from the validated value's [name] and [price], not from the raw
    body, and the saved document is sent back with status 201. *)
Theorem create_saves_validated_value
    (schema : option Js.json → Backend.Validation)
    (save : option Js.json → option Js.json → Backend.Settled Js.json)
    (req : Req.t) (r : Res.t) (v saved : Js.json) :
  Res.headersSent r = false →
  Backend.error (schema (Req.body req)) = None →
  Backend.value (schema (Req.body req)) = Some v →
  v ≠ JNull →
  save (Backend.prop "name" v) (Backend.prop "price" v) = Backend.Fulfilled saved →
  let c := Backend.validateRequest schema (Backend.createProduct save) req r in
  Backend.answersOnce r c ∧
  Res.statusCode (Backend.final c) = 201 ∧
  Res.sent (Backend.final c) = Some saved.
Proof.
  intros Hopen Herr Hval Hv Hsave c. subst c.
  unfold Backend.validateRequest. rewrite Herr, Hval.
  unfold Backend.createProduct. brun. cbn [Req.body Backend.setBody].
  rewrite destructure_object by exact Hv. rewrite Hsave.
  rewrite reply_run by (exact Hopen || reflexivity).
  repeat split.
Qed.

Lemma create_saves_validated_value_witness :
  Res.headersSent Res.fresh = false ∧
  Backend.error (Fixture.accept (Req.body Sample.create)) = None ∧
  Backend.value (Fixture.accept (Req.body Sample.create)) = Some Sample.widget ∧
  Sample.widget ≠ JNull ∧
  Fixture.save (Backend.prop "name" Sample.widget) (Backend.prop "price" Sample.widget)
  = Backend.Fulfilled Fixture.stored ∧
  Res.statusCode
    (Backend.final
       (Backend.validateRequest Fixture.accept
          (Backend.createProduct Fixture.save) Sample.create Res.fresh)) = 201.
Proof.
  split; [reflexivity|]. split; [reflexivity|]. split; [reflexivity|].
  split; [discriminate|]. split; [reflexivity|].
  apply (create_saves_validated_value Fixture.accept Fixture.save Sample.create
           Res.fresh Sample.widget Fixture.stored);
    [reflexivity | reflexivity | reflexivity | discriminate | reflexivity].
Defined.

(** X6.  [POST /]: when saving fails with the driver's duplicate-key code
    11000, the client gets 409 and a fixed message, whatever the rest of
    the error says. *)
Theorem create_duplicate_is_conflict
    (schema : option Js.json → Backend.Validation)
    (save : option Js.json → option Js.json → Backend.Settled Js.json)
    (req : Req.t) (r : Res.t) (v : Js.json) (err : Backend.Err) :
  Res.headersSent r = false →
  Backend.error (schema (Req.body req)) = None →
  Backend.value (schema (Req.body req)) = Some v →
  v ≠ JNull →
  save (Backend.prop "name" v) (Backend.prop "price" v) = Backend.Rejected err →
  Backend.name_is err "ValidationError" = false →
  Backend.duplicateKey err = true →
  let c := Backend.validateRequest schema (Backend.createProduct save) req r in
  Backend.answersOnce r c ∧
  Res.statusCode (Backend.final c) = 409 ∧
  Res.sent (Backend.final c)
  = Some (JObj [("error", JStr "Product with this name already exists")]).
Proof.
  intros Hopen Herr Hval Hv Hsave Hname Hdup c. subst c.
  unfold Backend.validateRequest. rewrite Herr, Hval.
  unfold Backend.createProduct. brun. cbn [Req.body Backend.setBody].
  rewrite destructure_object by exact Hv. rewrite Hsave.
  unfold Backend.handleProductError. rewrite Hname, Hdup.
  rewrite reply_open by (exact Hopen || reflexivity).
  repeat split.
Qed.

Lemma create_duplicate_is_conflict_witness :
  Res.headersSent Res.fresh = false ∧
  Backend.error (Fixture.accept (Req.body Sample.create)) = None ∧
  Backend.value (Fixture.accept (Req.body Sample.create)) = Some Sample.widget ∧
  Sample.widget ≠ JNull ∧
  Fixture.taken (Backend.prop "name" Sample.widget) (Backend.prop "price" Sample.widget)
  = Backend.Rejected Fixture.duplicate ∧
  Backend.name_is Fixture.duplicate "ValidationError" = false ∧
  Backend.duplicateKey Fixture.duplicate = true ∧
  Res.statusCode
    (Backend.final
       (Backend.validateRequest Fixture.accept
          (Backend.createProduct Fixture.taken) Sample.create Res.fresh)) = 409.
Proof.
  repeat (split; [first [reflexivity | discriminate]|]).
  apply (create_duplicate_is_conflict Fixture.accept Fixture.taken Sample.create
           Res.fresh Sample.widget Fixture.duplicate);
    first [reflexivity | discriminate].
Defined.

(** X8.  The update document of [PUT /:id] holds [price] exactly when the
    body has one (zero and [null] included) and [name] exactly when the
    body's name is truthy (so an empty name is dropped); it holds nothing
    else. *)
Theorem updateDocument_fields (name price : option Js.json) (k : string) :
  let doc := JObj (Backend.updateDocument name price) in
  Backend.prop "price" doc = price ∧
  Backend.prop "name" doc = (if truthy name then name else None) ∧
  (k ≠ "name" → k ≠ "price" → Backend.prop k doc = None).
Proof.
  unfold Backend.updateDocument, Backend.prop.
  destruct name as [n|]; destruct price as [p|];
    cbn [truthy truthy_option]; try destruct (truthy n);
    cbn [app rev List.find fst snd fmap option_fmap option_map];
    repeat split; intros; simpl;
    repeat (rewrite bool_decide_eq_false_2 by congruence);
    reflexivity.
Qed.

(** X9.  An id that is not a valid ObjectId is answered 400 by [GET
    /:id], [DELETE /:id] and (given a body) [PUT /:id], and the database is
    not consulted: the outcome is the same for every database. *)
Theorem invalid_id_never_reaches_database (isValid : string → bool)
    (db db' : string → Backend.Settled (option Js.json))
    (update update' : string → list (string * Js.json)
                      → Backend.Settled (option Js.json))
    (id : string) (req : Req.t) (r : Res.t) (b : Js.json) :
  Res.headersSent r = false →
  isValid id = false →
  Req.body req = Some b → b ≠ JNull →
  let reply :=
    Backend.Done tt
      (Res.mk 400
         (framed 400 (JObj [("error", JStr "Invalid product ID")])
            (Res.headers r))
         true
         (Some (JObj [("error", JStr "Invalid product ID")]))
         (S (Res.jsonCalls r))) in
  Backend.getProduct isValid db id r = reply ∧
  Backend.getProduct isValid db' id r = reply ∧
  Backend.deleteProduct isValid db id r = reply ∧
  Backend.deleteProduct isValid db' id r = reply ∧
  Backend.updateProduct isValid update id req r = reply ∧
  Backend.updateProduct isValid update' id req r = reply.
Proof.
  intros Hopen Hid Hbody Hb reply. subst reply.
  unfold Backend.getProduct, Backend.deleteProduct, Backend.updateProduct,
    Backend.isValidObjectId.
  rewrite Hbody, Hid. brun. cbn [negb].
  rewrite !(destructure_object b r Hb). cbv beta iota.
  rewrite !reply_run by (exact Hopen || reflexivity).
  repeat split.
Qed.

Lemma invalid_id_never_reaches_database_witness :
  Res.headersSent Res.fresh = false ∧
  (fun id : string => bool_decide (String.length id = 24%nat)) "42" = false ∧
  Req.body Sample.create = Some Sample.widget ∧
  Sample.widget ≠ JNull ∧
  Backend.getProduct (fun id => bool_decide (String.length id = 24%nat))
    Fixture.found "42" Res.fresh
  = Backend.Done tt
      (Res.mk 400 (framed 400 (JObj [("error", JStr "Invalid product ID")]) ∅)
         true (Some (JObj [("error", JStr "Invalid product ID")])) 1).
Proof.
  split; [reflexivity|]. split; [reflexivity|]. split; [reflexivity|].
  split; [discriminate|].
  apply (invalid_id_never_reaches_database
           (fun id => bool_decide (String.length id = 24%nat))
           Fixture.found Fixture.broken
           (fun _ _ => Backend.Fulfilled None)
           (fun _ _ => Backend.Rejected Fixture.lost)
           "42" Sample.create Res.fresh Sample.widget);
    first [reflexivity | discriminate].
Defined.

(** X10.  With a valid id, a document the database does not have is
    answered 404 with the same body by [GET /:id], [DELETE /:id] and [PUT
    /:id]. *)
Theorem missing_document_is_not_found (isValid : string → bool)
    (findById findByIdAndDelete : string → Backend.Settled (option Js.json))
    (findByIdAndUpdate : string → list (string * Js.json)
                         → Backend.Settled (option Js.json))
    (id : string) (req : Req.t) (r : Res.t) (b : Js.json) :
  Res.headersSent r = false →
  isValid id = true →
  Req.body req = Some b → b ≠ JNull →
  findById id = Backend.Fulfilled None →
  findByIdAndDelete id = Backend.Fulfilled None →
  findByIdAndUpdate id
    (Backend.updateDocument (Backend.prop "name" b) (Backend.prop "price" b))
  = Backend.Fulfilled None →
  let reply :=
    Backend.Done tt
      (Res.mk 404
         (framed 404 (JObj [("error", JStr "Product not found")])
            (Res.headers r))
         true
         (Some (JObj [("error", JStr "Product not found")]))
         (S (Res.jsonCalls r))) in
  Backend.getProduct isValid findById id r = reply ∧
  Backend.deleteProduct isValid findByIdAndDelete id r = reply ∧
  Backend.updateProduct isValid findByIdAndUpdate id req r = reply.
Proof.
  intros Hopen Hid Hbody Hb Hget Hdel Hupd reply. subst reply.
  unfold Backend.getProduct, Backend.deleteProduct, Backend.updateProduct,
    Backend.isValidObjectId.
  rewrite Hbody, Hid, Hget, Hdel. brun. cbn [negb].
  rewrite (destructure_object b r Hb). cbv beta iota. rewrite Hupd.
  rewrite !reply_run by (exact Hopen || reflexivity).
  repeat split.
Qed.

Lemma missing_document_is_not_found_witness :
  Res.headersSent Res.fresh = false ∧
  (fun _ : string => true) "65f1c0ffee0123456789abcd" = true ∧
  Req.body Sample.create = Some Sample.widget ∧
  Sample.widget ≠ JNull ∧
  Fixture.missing "65f1c0ffee0123456789abcd" = Backend.Fulfilled None ∧
  Backend.deleteProduct (fun _ => true) Fixture.missing
    "65f1c0ffee0123456789abcd" Res.fresh
  = Backend.Done tt
      (Res.mk 404 (framed 404 (JObj [("error", JStr "Product not found")]) ∅)
         true (Some (JObj [("error", JStr "Product not found")])) 1).
Proof.
  repeat (split; [first [reflexivity | discriminate]|]).
  apply (missing_document_is_not_found (fun _ => true)
           Fixture.missing Fixture.missing (fun _ _ => Backend.Fulfilled None)
           "65f1c0ffee0123456789abcd" Sample.create Res.fresh Sample.widget);
    first [reflexivity | discriminate].
Defined.

(** X11.  With a valid id and a document found: [GET /:id] sends the
    document as it is and leaves the status alone, [PUT /:id] sends the
    updated document with 200, and [DELETE /:id] sends 200 with a fixed
    message that does not depend on the document deleted.  The status
    [GET /:id] finds on the response, 200 on the one Express hands over,
    has to be one Node accepts. *)
Theorem found_document_replies (isValid : string → bool)
    (findById findByIdAndDelete : string → Backend.Settled (option Js.json))
    (findByIdAndUpdate : string → list (string * Js.json)
                         → Backend.Settled (option Js.json))
    (id : string) (req : Req.t) (r : Res.t) (b doc gone updated : Js.json) :
  Res.headersSent r = false →
  isValid id = true →
  Req.body req = Some b → b ≠ JNull →
  findById id = Backend.Fulfilled (Some doc) →
  findByIdAndDelete id = Backend.Fulfilled (Some gone) →
  findByIdAndUpdate id
    (Backend.updateDocument (Backend.prop "name" b) (Backend.prop "price" b))
  = Backend.Fulfilled (Some updated) →
  validStatus (Res.statusCode r) = true →
  let answer (c : Z) (v : Js.json) :=
    Backend.Done tt
      (Res.mk c (framed c v (Res.headers r)) true (Some v)
         (S (Res.jsonCalls r))) in
  Backend.getProduct isValid findById id r = answer (Res.statusCode r) doc ∧
  Backend.updateProduct isValid findByIdAndUpdate id req r = answer 200 updated ∧
  Backend.deleteProduct isValid findByIdAndDelete id r
  = answer 200 (JObj [("message", JStr "Product deleted successfully")]).
Proof.
  intros Hopen Hid Hbody Hb Hget Hdel Hupd Hvalid answer. subst answer.
  unfold Backend.getProduct, Backend.deleteProduct, Backend.updateProduct,
    Backend.isValidObjectId.
  rewrite Hbody, Hid, Hget, Hdel. brun. cbn [negb].
  rewrite (destructure_object b r Hb). cbv beta iota. rewrite Hupd.
  rewrite !reply_run by (exact Hopen || reflexivity).
  rewrite send_open by assumption.
  repeat split.
Qed.

Lemma found_document_replies_witness :
  Res.headersSent Res.fresh = false ∧
  (fun _ : string => true) "65f1c0ffee0123456789abcd" = true ∧
  Req.body Sample.create = Some Sample.widget ∧
  Sample.widget ≠ JNull ∧
  Fixture.found "65f1c0ffee0123456789abcd" = Backend.Fulfilled (Some Fixture.stored) ∧
  validStatus (Res.statusCode Res.fresh) = true ∧
  Backend.getProduct (fun _ => true) Fixture.found "65f1c0ffee0123456789abcd"
    Res.fresh
  = Backend.Done tt
      (Res.mk 200 (framed 200 Fixture.stored ∅) true (Some Fixture.stored) 1).
Proof.
  repeat (split; [first [reflexivity | discriminate]|]).
  apply (found_document_replies (fun _ => true)
           Fixture.found Fixture.found
           (fun _ _ => Backend.Fulfilled (Some Fixture.stored))
           "65f1c0ffee0123456789abcd" Sample.create Res.fresh Sample.widget
           Fixture.stored Fixture.stored Fixture.stored);
    first [reflexivity | discriminate].
Defined.

(* ===================================================================== *)
(** ** Pagination *)
(* ===================================================================== *)

Lemma Qle_bool_false (x y : Q) : Qle_bool x y = false → (y < x)%Q.
Proof.
  intros H. apply Qnot_le_lt. intros Hle.
  apply Qle_bool_iff in Hle. congruence.
Qed.

Ltac qnorm :=
  change (inject_Z 1) with 1%Q in *;
  change (inject_Z 10) with 10%Q in *;
  change (inject_Z 100) with 100%Q in *.

(** The page number is 1 or more, or infinite. *)
Lemma page_cases (parseInt : Js.json → Number.t) (req : Req.t) :
  Backend.page parseInt req = Number.Infinity false
  ∨ ∃ p : Q, Backend.page parseInt req = Number.Finite p ∧ (1 <= p)%Q.
Proof.
  unfold Backend.page, Js.or.
  destruct (Backend.parsed parseInt "page" req) as [| [|] | q];
    cbn [truthy Number.truthy_number].
  - right. exists 1%Q. split; [reflexivity | lra].
  - right. exists 1%Q. split; [reflexivity | lra].
  - left. reflexivity.
  - destruct (Qeq_bool q 0); cbn [negb].
    + right. exists 1%Q. split; [reflexivity | lra].
    + unfold Number.max, Number.ofZ, Number.lt.
      destruct (Qle_bool q (inject_Z 1)) eqn:Hq; cbn [negb].
      * right. exists 1%Q. split; [reflexivity | lra].
      * right. exists q. split; [reflexivity|].
        apply Qle_bool_false in Hq. qnorm. lra.
Qed.

(** The page size is a number between 1 and 100. *)
Lemma limit_cases (parseInt : Js.json → Number.t) (req : Req.t) :
  ∃ l : Q, Backend.limit parseInt req = Number.Finite l
           ∧ (1 <= l)%Q ∧ (l <= 100)%Q.
Proof.
  unfold Backend.limit, Js.or.
  destruct (Backend.parsed parseInt "limit" req) as [| [|] | q];
    cbn [truthy Number.truthy_number].
  - exists 10%Q. split; [reflexivity | split; lra].
  - exists 1%Q. split; [reflexivity | split; lra].
  - exists 100%Q. split; [reflexivity | split; lra].
  - destruct (Qeq_bool q 0); cbn [negb].
    + exists 10%Q. split; [reflexivity | split; lra].
    + unfold Number.max, Number.min, Number.ofZ, Number.lt.
      destruct (Qle_bool q (inject_Z 1)) eqn:Hq; cbn [negb].
      * exists 1%Q. split; [reflexivity | split; lra].
      * destruct (Qle_bool q (inject_Z 100)) eqn:Hq'; cbn [negb].
        -- exists q. split; [reflexivity|].
           apply Qle_bool_false in Hq. apply Qle_bool_iff in Hq'.
           qnorm. split; lra.
        -- exists 100%Q. split; [reflexivity | split; lra].
Qed.

(** X12.  Whatever the query string holds and whatever [parseInt] makes
    of it, the listing asks the database for between 1 and 100 documents,
    from page 1 or later and with a skip that is not negative; neither
    [page], [limit] nor [skip] is ever [NaN]. *)
Theorem list_query_bounds (parseInt : Js.json → Number.t) (req : Req.t) :
  (∃ l : Q, Backend.limit parseInt req = Number.Finite l
            ∧ (1 <= l)%Q ∧ (l <= 100)%Q) ∧
  (Backend.page parseInt req = Number.Infinity false
   ∨ ∃ p : Q, Backend.page parseInt req = Number.Finite p ∧ (1 <= p)%Q) ∧
  (Backend.skip parseInt req = Number.Infinity false
   ∨ ∃ s : Q, Backend.skip parseInt req = Number.Finite s ∧ (0 <= s)%Q).
Proof.
  split; [apply limit_cases|]. split; [apply page_cases|].
  unfold Backend.skip.
  destruct (limit_cases parseInt req) as (l & -> & Hl1 & Hl100).
  destruct (page_cases parseInt req) as [-> | (p & -> & Hp)].
  - left. unfold Number.sub, Number.add, Number.opp, Number.mul, Number.ofZ.
    cbn [Bool.eqb xorb].
    destruct (Qeq_bool l 0) eqn:Hz.
    + apply Qeq_bool_iff in Hz. lra.
    + unfold Number.negative.
      destruct (Qle_bool 0 l) eqn:Hneg; [reflexivity|].
      apply Qle_bool_false in Hneg. lra.
  - right. unfold Number.sub, Number.add, Number.opp, Number.mul, Number.ofZ.
    eexists. split; [reflexivity|]. qnorm. nra.
Qed.

Lemma Qle_bool_true (x y : Q) : (x <= y)%Q → Qle_bool x y = true.
Proof. intros H. by apply Qle_bool_iff. Qed.

Lemma Qle_bool_gt (x y : Q) : (y < x)%Q → Qle_bool x y = false.
Proof.
  intros H. destruct (Qle_bool x y) eqn:E; [|reflexivity].
  apply Qle_bool_iff in E. lra.
Qed.

Lemma Qeq_bool_neq_false (x y : Q) : ¬ (x == y)%Q → Qeq_bool x y = false.
Proof.
  intros H. destruct (Qeq_bool x y) eqn:E; [|reflexivity].
  apply Qeq_bool_iff in E. contradiction.
Qed.

(** X13.  Defaults of the listing: a [page] that is missing, unparsable
    or zero gives page 1 and skip 0; a [limit] that is missing,
    unparsable or zero gives 10 (not 1), while a negative limit gives 1
    and a limit above 100 gives 100. *)
Theorem list_defaults (parseInt : Js.json → Number.t) (req : Req.t) :
  (truthy (Backend.parsed parseInt "page" req) = false →
   Backend.page parseInt req = Number.ofZ 1
   ∧ ∃ s : Q, Backend.skip parseInt req = Number.Finite s ∧ (s == 0)%Q) ∧
  (truthy (Backend.parsed parseInt "limit" req) = false →
   Backend.limit parseInt req = Number.ofZ 10) ∧
  (Backend.queryParam "page" req = None →
   truthy (Backend.parsed parseInt "page" req) = false) ∧
  (Backend.queryParam "limit" req = None →
   truthy (Backend.parsed parseInt "limit" req) = false) ∧
  (∀ q : Q, Backend.parsed parseInt "limit" req = Number.Finite q →
     (q < 0)%Q → Backend.limit parseInt req = Number.ofZ 1) ∧
  (∀ q : Q, Backend.parsed parseInt "limit" req = Number.Finite q →
     (100 < q)%Q → Backend.limit parseInt req = Number.ofZ 100).
Proof.
  split; [|split; [|split; [|split; [|split]]]].
  - intros Hfalsy.
    assert (Hpage : Backend.page parseInt req = Number.ofZ 1).
    { unfold Backend.page, Js.or. rewrite Hfalsy. reflexivity. }
    split; [exact Hpage|].
    unfold Backend.skip. rewrite Hpage.
    destruct (limit_cases parseInt req) as (l & -> & _ & _).
    unfold Number.sub, Number.add, Number.opp, Number.mul, Number.ofZ.
    eexists. split; [reflexivity|]. qnorm. lra.
  - intros Hfalsy. unfold Backend.limit, Js.or. rewrite Hfalsy. reflexivity.
  - intros Hmiss. unfold Backend.parsed. rewrite Hmiss. reflexivity.
  - intros Hmiss. unfold Backend.parsed. rewrite Hmiss. reflexivity.
  - intros q Hq Hneg. unfold Backend.limit, Js.or. rewrite Hq.
    cbn [truthy Number.truthy_number].
    rewrite Qeq_bool_neq_false by lra. cbn [negb].
    unfold Number.max, Number.min, Number.ofZ, Number.lt.
    rewrite (Qle_bool_true q (inject_Z 1)) by (qnorm; lra).
    reflexivity.
  - intros q Hq Hbig. unfold Backend.limit, Js.or. rewrite Hq.
    cbn [truthy Number.truthy_number].
    rewrite Qeq_bool_neq_false by lra. cbn [negb].
    unfold Number.max, Number.min, Number.ofZ, Number.lt.
    rewrite (Qle_bool_gt q (inject_Z 1)) by (qnorm; lra). cbn [negb].
    rewrite (Qle_bool_gt q (inject_Z 100)) by (qnorm; lra).
    reflexivity.
Qed.

(** X14.  For a count of documents that is not negative (and below 2^53,
    where doubles hold it exactly), the number of pages reported is the
    least whole number of pages of [limit] documents that holds them all:
    it is zero exactly when there is no document. *)
Theorem pages_is_ceiling (parseInt : Js.json → Number.t) (req : Req.t)
    (total : Z) :
  (0 ≤ total)%Z → (total < 2 ^ 53)%Z →
  ∃ (n : Z) (l : Q),
    Backend.pages parseInt total req = Number.ofZ n ∧
    Backend.limit parseInt req = Number.Finite l ∧
    (0 ≤ n)%Z ∧
    (inject_Z total <= inject_Z n * l)%Q ∧
    (inject_Z (n - 1) * l < inject_Z total)%Q ∧
    (n = 0%Z ↔ total = 0%Z).
Proof.
  intros Hpos _.
  destruct (limit_cases parseInt req) as (l & Hl & Hl1 & Hl100).
  exists (Qceiling (inject_Z total / l)), l.
  unfold Backend.pages. rewrite Hl.
  unfold Number.div, Number.ceil, Number.ofZ.
  rewrite Qeq_bool_neq_false by lra.
  split; [reflexivity|]. split; [reflexivity|].
  set (x := (inject_Z total / l)%Q).
  assert (Hx : (x * l == inject_Z total)%Q).
  { unfold x. field. lra. }
  assert (Ht : (0 <= inject_Z total)%Q).
  { change 0%Q with (inject_Z 0). rewrite <- Zle_Qle. exact Hpos. }
  assert (Hx0 : (0 <= x)%Q) by nra.
  pose proof (Qle_ceiling x) as Hup.
  pose proof (Qceiling_lt x) as Hlow.
  assert (Hn : (0 ≤ Qceiling x)%Z).
  { rewrite Zle_Qle. change (inject_Z 0) with 0%Q. lra. }
  split; [exact Hn|].
  split; [nra|].
  split; [nra|].
  split.
  - intros Hzero. rewrite Hzero in Hup. change (inject_Z 0) with 0%Q in Hup.
    assert (Hxz : (x == 0)%Q) by lra.
    assert (Htz : (inject_Z total == 0)%Q) by nra.
    unfold Qeq in Htz. simpl in Htz. lia.
  - intros ->. unfold x.
    assert (Hq : (inject_Z 0 / l == 0)%Q).
    { change (inject_Z 0) with 0%Q. field. lra. }
    rewrite Hq. reflexivity.
Qed.

Lemma pages_is_ceiling_witness :
  (0 ≤ 41)%Z ∧ (41 < 2 ^ 53)%Z ∧
  ∃ (n : Z) (l : Q),
    Backend.pages Fixture.parseInt 41 (Fixture.listing [("page", JStr "2")])
    = Number.ofZ n ∧
    Backend.limit Fixture.parseInt (Fixture.listing [("page", JStr "2")])
    = Number.Finite l ∧
    (0 ≤ n)%Z ∧
    (inject_Z 41 <= inject_Z n * l)%Q ∧
    (inject_Z (n - 1) * l < inject_Z 41)%Q ∧
    (n = 0%Z ↔ 41%Z = 0%Z).
Proof.
  split; [lia|]. split; [lia|].
  apply (pages_is_ceiling Fixture.parseInt (Fixture.listing [("page", JStr "2")]) 41);
    lia.
Defined.

(* ===================================================================== *)
(** ** One response per request in the back end *)
(* ===================================================================== *)

Lemma caught_answers (err : Backend.Err) (endpoint : string) (r : Res.t) :
  Res.headersSent r = false →
  Backend.tabled err →
  Backend.answersOnce r (Backend.handleProductError err endpoint r).
Proof.
  intros Hopen Htable.
  destruct (handleProductError_open err endpoint r Hopen Htable)
    as (c & body & e & -> & _ & _).
  repeat split.
Qed.

Lemma TypeError_tabled (msg : string) : Backend.tabled (Backend.TypeError msg).
Proof. intros H. discriminate H. Qed.

Ltac answered Hopen :=
  first
    [ rewrite reply_run by (exact Hopen || reflexivity); repeat split
    | rewrite send_open by assumption; repeat split
    | apply caught_answers; [exact Hopen | eauto using TypeError_tabled] ].

Lemma createProduct_answers
    (save : option Js.json → option Js.json → Backend.Settled Js.json)
    (req : Req.t) (r : Res.t) :
  Res.headersSent r = false →
  (∀ n p e, save n p = Backend.Rejected e → Backend.tabled e) →
  Backend.answersOnce r (Backend.createProduct save req r).
Proof.
  intros Hopen Hsave. unfold Backend.createProduct, Backend.destructure.
  destruct (Req.body req) as [[]|]; brun;
    try (answered Hopen);
    match goal with
    | |- context [save ?n ?p] => destruct (save n p) eqn:Hs
    end; cbv beta iota; answered Hopen.
Qed.

Lemma updateProduct_answers (isValid : string → bool)
    (update : string → list (string * Js.json) → Backend.Settled (option Js.json))
    (id : string) (req : Req.t) (r : Res.t) :
  Res.headersSent r = false →
  (∀ i d e, update i d = Backend.Rejected e → Backend.tabled e) →
  Backend.answersOnce r (Backend.updateProduct isValid update id req r).
Proof.
  intros Hopen Hupd.
  unfold Backend.updateProduct, Backend.destructure, Backend.isValidObjectId.
  destruct (Req.body req) as [[]|]; brun;
    try (answered Hopen);
    destruct (isValid id); cbn [negb]; try (answered Hopen);
    match goal with
    | |- context [update ?i ?d] => destruct (update i d) as [[doc|]|e] eqn:Hu
    end; cbv beta iota; answered Hopen.
Qed.

Lemma listProducts_answers (parseInt : Js.json → Number.t)
    (findPage : Number.t → Number.t → Backend.Settled (list Js.json * Z))
    (req : Req.t) (r : Res.t) :
  Res.headersSent r = false →
  validStatus (Res.statusCode r) = true →
  (∀ s l e, findPage s l = Backend.Rejected e → Backend.tabled e) →
  Backend.answersOnce r (Backend.listProducts parseInt findPage req r).
Proof.
  intros Hopen Hvalid Hfind. unfold Backend.listProducts. brun.
  destruct (findPage (Backend.skip parseInt req) (Backend.limit parseInt req))
    as [[products total]|e] eqn:Hf; cbv beta iota; answered Hopen.
Qed.

Lemma lookup_answers (isValid : string → bool)
    (db : string → Backend.Settled (option Js.json)) (id : string) (r : Res.t) :
  Res.headersSent r = false →
  validStatus (Res.statusCode r) = true →
  (∀ i e, db i = Backend.Rejected e → Backend.tabled e) →
  Backend.answersOnce r (Backend.getProduct isValid db id r) ∧
  Backend.answersOnce r (Backend.deleteProduct isValid db id r).
Proof.
  intros Hopen Hvalid Hdb.
  unfold Backend.getProduct, Backend.deleteProduct, Backend.isValidObjectId.
  brun.
  destruct (isValid id); cbn [negb];
    [destruct (db id) as [[doc|]|e] eqn:Hd; cbv beta iota|];
    split; answered Hopen.
Qed.

(** X15.  Every product route answers exactly once on a response that has
    not been started: whatever the request, the id check and the
    database do, the handler completes, nothing is thrown out of it and
    [res.json] is called one time.  The conditions are that a Mongoose
    validation error carries its table, and that the status found on the
    response, which the two routes that set none send with, is one Node
    accepts, as the 200 of the response Express hands over is. *)
Theorem routes_answer_once (parseInt : Js.json → Number.t)
    (isValid : string → bool)
    (save : option Js.json → option Js.json → Backend.Settled Js.json)
    (findByIdAndUpdate : string → list (string * Js.json)
                         → Backend.Settled (option Js.json))
    (findPage : Number.t → Number.t → Backend.Settled (list Js.json * Z))
    (findById findByIdAndDelete : string → Backend.Settled (option Js.json))
    (id : string) (req : Req.t) (r : Res.t) :
  Res.headersSent r = false →
  validStatus (Res.statusCode r) = true →
  (∀ n p e, save n p = Backend.Rejected e → Backend.tabled e) →
  (∀ i d e, findByIdAndUpdate i d = Backend.Rejected e → Backend.tabled e) →
  (∀ s l e, findPage s l = Backend.Rejected e → Backend.tabled e) →
  (∀ i e, findById i = Backend.Rejected e → Backend.tabled e) →
  (∀ i e, findByIdAndDelete i = Backend.Rejected e → Backend.tabled e) →
  Backend.answersOnce r (Backend.createProduct save req r) ∧
  Backend.answersOnce r (Backend.updateProduct isValid findByIdAndUpdate id req r) ∧
  Backend.answersOnce r (Backend.listProducts parseInt findPage req r) ∧
  Backend.answersOnce r (Backend.getProduct isValid findById id r) ∧
  Backend.answersOnce r (Backend.deleteProduct isValid findByIdAndDelete id r).
Proof.
  intros Hopen Hvalid Hsave Hupd Hfind Hget Hdel.
  split; [by apply createProduct_answers|].
  split; [by apply updateProduct_answers|].
  split; [by apply listProducts_answers|].
  split.
  - by apply (lookup_answers isValid findById id r Hopen Hvalid Hget).
  - by apply (lookup_answers isValid findByIdAndDelete id r Hopen Hvalid Hdel).
Qed.

Lemma lost_tabled {A} (db : Backend.Settled A) (e : Backend.Err) :
  db = Backend.Rejected Fixture.lost ∨ db = Backend.Rejected Fixture.duplicate
  ∨ (∃ a, db = Backend.Fulfilled a) →
  db = Backend.Rejected e → Backend.tabled e.
Proof.
  intros [-> | [-> | [a ->]]] He; try discriminate He;
    injection He as <-; intros H; discriminate H.
Qed.

Lemma routes_answer_once_witness :
  Res.headersSent Res.fresh = false ∧
  validStatus (Res.statusCode Res.fresh) = true ∧
  (∀ i e, Fixture.broken i = Backend.Rejected e → Backend.tabled e) ∧
  Backend.answersOnce Res.fresh
    (Backend.deleteProduct (fun _ => true) Fixture.broken
       "65f1c0ffee0123456789abcd" Res.fresh).
Proof.
  split; [reflexivity|]. split; [reflexivity|].
  split; [intros i e; apply lost_tabled; left; reflexivity|].
  apply (routes_answer_once Fixture.parseInt (fun _ => true) Fixture.taken
           (fun _ _ => Backend.Fulfilled None)
           (fun _ _ => Backend.Rejected Fixture.lost)
           Fixture.found Fixture.broken
           "65f1c0ffee0123456789abcd" Sample.create Res.fresh eq_refl eq_refl).
  - intros n p e. apply lost_tabled. right. left. reflexivity.
  - intros i d e. apply lost_tabled. right. right. eauto.
  - intros s l e. apply lost_tabled. left. reflexivity.
  - intros i e. apply lost_tabled. right. right. eauto.
  - intros i e. apply lost_tabled. left. reflexivity.
Defined.

(* ===================================================================== *)
(** ** The back end's own endpoints *)
(* ===================================================================== *)

(** X16.  The back end's health endpoint answers 200 exactly when the
    database connection's [readyState] is 1 and 503 otherwise; in both
    cases the body says [ok: true], the state of the database being told
    by the [database] field alone. *)
Theorem backend_health_status (readyState : Z) (now : string) (uptime : Q)
    (NODE_ENV : option string) (r : Res.t) :
  Res.headersSent r = false →
  let c := Backend.health readyState now uptime NODE_ENV r in
  Backend.answersOnce r c ∧
  (Res.statusCode (Backend.final c) = 200 ↔ readyState = 1) ∧
  (Res.statusCode (Backend.final c) = 503 ↔ readyState ≠ 1) ∧
  ∃ body,
    Res.sent (Backend.final c) = Some body ∧
    Backend.prop "ok" body = Some (JBool true) ∧
    Backend.prop "database" body
    = Some (JStr (if bool_decide (readyState = 1)
                  then "connected" else "disconnected")).
Proof.
  intros Hopen c. subst c. unfold Backend.health. brun.
  rewrite reply_run by (exact Hopen || (by destruct (bool_decide (readyState = 1)))).
  cbn [Backend.final Res.statusCode Res.sent].
  split; [repeat split|].
  destruct (bool_decide (readyState = 1)) eqn:Hready.
  - apply bool_decide_eq_true_1 in Hready.
    split; [tauto|]. split; [split; [discriminate | tauto]|].
    eexists. split; [reflexivity|]. split; reflexivity.
  - apply bool_decide_eq_false_1 in Hready.
    split; [split; [discriminate | tauto]|]. split; [tauto|].
    eexists. split; [reflexivity|]. split; reflexivity.
Qed.

Lemma backend_health_status_witness :
  Res.headersSent Res.fresh = false ∧
  Res.statusCode
    (Backend.final (Backend.health 0 "2025-01-01T00:00:00.000Z" (7 # 2) None Res.fresh))
  = 503.
Proof.
  split; [reflexivity|].
  apply (backend_health_status 0 "2025-01-01T00:00:00.000Z" (7 # 2) None Res.fresh
           eq_refl).
  discriminate.
Defined.

(** X17.  The global error handler always answers 500.  In production
    the body is the same for every error; otherwise it carries the
    error's message. *)
Theorem errorHandler_hides_message_in_production (NODE_ENV : option string)
    (err err' : Backend.Err) (r : Res.t) :
  Res.headersSent r = false →
  let c := Backend.errorHandler NODE_ENV err r in
  Backend.answersOnce r c ∧
  Res.statusCode (Backend.final c) = 500 ∧
  (NODE_ENV = Some "production" →
   c = Backend.errorHandler NODE_ENV err' r ∧
   Res.sent (Backend.final c) = Some (JObj [("error", JStr "Internal server error")])) ∧
  (NODE_ENV ≠ Some "production" →
   Res.sent (Backend.final c) = Some (JObj [("error", JStr (Backend.message err))])).
Proof.
  intros Hopen c. subst c. unfold Backend.errorHandler.
  rewrite !reply_open by (exact Hopen || reflexivity). cbn [Backend.final Res.statusCode Res.sent].
  split; [repeat split|]. split; [reflexivity|]. split.
  - intros Hprod. rewrite !bool_decide_eq_true_2 by exact Hprod.
    split; reflexivity.
  - intros Hdev. rewrite bool_decide_eq_false_2 by exact Hdev. reflexivity.
Qed.

Lemma errorHandler_hides_message_in_production_witness :
  Res.headersSent Res.fresh = false ∧
  Backend.errorHandler (Some "production") Fixture.lost Res.fresh
  = Backend.errorHandler (Some "production") Fixture.cast Res.fresh.
Proof.
  split; [reflexivity|].
  apply (errorHandler_hides_message_in_production (Some "production")
           Fixture.lost Fixture.cast Res.fresh eq_refl).
  reflexivity.
Defined.

(* ===================================================================== *)
(** ** More on the gateway *)
(* ===================================================================== *)

(** X18.  An error that is not an axios error is answered 502 whatever it
    holds: a plain error with the code [ECONNREFUSED], a timeout code or
    an attached response is not given the 503, 504 or relayed reply. *)
Theorem non_axios_error_is_bad_gateway (BACKEND_URL : option string)
    (axios : Config.t → Axios.Outcome) (req : Req.t) (w : World) (e : Error) :
  Res.headersSent (res w) = false →
  axios (config BACKEND_URL req) = Axios.Rejected e →
  isAxiosError e = false →
  let c := proxyRequest BACKEND_URL axios req w in
  completes c = true ∧
  Res.statusCode (res (final c)) = 502 ∧
  Res.sent (res (final c)) = Some bad_gateway.
Proof.
  intros Hopen Hax Hplain c. subst c.
  assert (Hvalid : validStatus (fst (Spec.reply (Spec.classify e))) = true).
  { unfold Spec.classify, Spec.rows, Spec.firstMatch, Spec.refused,
      Spec.timedOut, Spec.carried.
    rewrite Hplain. reflexivity. }
  rewrite (proxyRequest_rejected _ _ _ _ _ Hopen Hvalid Hax).
  unfold Spec.classify, Spec.rows, Spec.firstMatch, Spec.refused,
    Spec.timedOut, Spec.carried.
  rewrite Hplain. repeat split.
Qed.

Lemma non_axios_error_is_bad_gateway_witness :
  Res.headersSent (res initial) = false ∧
  (fun _ : Config.t =>
     Axios.Rejected (mkError false (Some "ECONNREFUSED") "connect ECONNREFUSED" ""
                       (Some Sample.not_found)))
    (config None Sample.get)
  = Axios.Rejected (mkError false (Some "ECONNREFUSED") "connect ECONNREFUSED" ""
                      (Some Sample.not_found)) ∧
  isAxiosError (mkError false (Some "ECONNREFUSED") "connect ECONNREFUSED" ""
                  (Some Sample.not_found)) = false ∧
  Res.statusCode
    (res (final (proxyRequest None
                   (fun _ =>
                      Axios.Rejected
                        (mkError false (Some "ECONNREFUSED") "connect ECONNREFUSED" ""
                           (Some Sample.not_found)))
                   Sample.get initial))) = 502.
Proof.
  split; [reflexivity|]. split; [reflexivity|]. split; [reflexivity|].
  apply (non_axios_error_is_bad_gateway None
           (fun _ =>
              Axios.Rejected
                (mkError false (Some "ECONNREFUSED") "connect ECONNREFUSED" ""
                   (Some Sample.not_found)))
           Sample.get initial
           (mkError false (Some "ECONNREFUSED") "connect ECONNREFUSED" ""
              (Some Sample.not_found)));
    reflexivity.
Defined.

(** X19.  Because the gateway's configuration accepts every status, a
    call made through axios never fails with a response attached: the
    client of a failed call always gets one of the three synthesized
    replies, never a relayed one. *)
Theorem failed_call_is_never_relayed (BACKEND_URL : option string)
    (wire : Axios.Wire) (req : Req.t) (w : World) (e : Error) :
  Res.headersSent (res w) = false →
  Axios.request wire (config BACKEND_URL req) = Axios.Rejected e →
  let r := res (final (proxyRequest BACKEND_URL (Axios.request wire) req w)) in
  response e = None ∧
  ((Res.statusCode r = 503 ∧ Res.sent r = Some unavailable)
   ∨ (Res.statusCode r = 504 ∧ Res.sent r = Some timed_out)
   ∨ (Res.statusCode r = 502 ∧ Res.sent r = Some bad_gateway)).
Proof.
  intros Hopen Hax r. subst r.
  assert (He : response e = None ∧ isAxiosError e = true).
  { revert Hax. unfold Axios.request, Axios.settle. simpl.
    destruct (_ <? Axios.request_bytes wire); [intros [= <-]; split; reflexivity|].
    destruct (Axios.reaction wire) as [up ms bytes | | | c msg].
    - destruct (_ <? ms); [intros [= <-]; split; reflexivity|].
      destruct (_ <? bytes); [intros [= <-]; split; reflexivity|].
      discriminate.
    - intros [= <-]. split; reflexivity.
    - intros [= <-]. split; reflexivity.
    - intros [= <-]. split; reflexivity. }
  destruct He as [Hnone Haxios]. split; [exact Hnone|].
  rewrite (proxyRequest_rejected _ _ _ _ _ Hopen (unrelayed_valid e Hnone) Hax).
  unfold Spec.classify, Spec.rows, Spec.firstMatch, Spec.refused,
    Spec.timedOut, Spec.carried.
  rewrite Haxios, Hnone. simpl.
  destruct (code_is e "ECONNREFUSED"); [left; split; reflexivity|].
  destruct (code_is e "ETIMEDOUT" || code_is e "ECONNABORTED");
    [right; left; split; reflexivity | right; right; split; reflexivity].
Qed.

Lemma failed_call_is_never_relayed_witness :
  Res.headersSent (res initial) = false ∧
  Axios.request Sample.down (config None Sample.get) = Axios.Rejected Sample.refusal ∧
  response Sample.refusal = None.
Proof.
  split; [reflexivity|]. split; [reflexivity|].
  apply (failed_call_is_never_relayed None Sample.down Sample.get initial
           Sample.refusal); reflexivity.
Defined.




(** X21.  The forwarder takes the request to have a body, and so sets
    [Content-Type], exactly when the parsed body is an object with at
    least one field, an array with at least one element or a non-empty
    string: [{}], [[]], [null], numbers, booleans and a missing body all
    count as no body. *)
Theorem hasBody_characterised (req : Req.t) :
  hasBody req
  = match Req.body req with
    | Some (JObj (_ :: _)) | Some (JArr (_ :: _)) | Some (JStr (String _ _)) => true
    | _ => false
    end.
Proof.
  unfold hasBody, Object_keys_length.
  destruct (Req.body req) as [[| b | q | [|a s] | [|x xs] | [|[k v] fs]]|];
    cbn [truthy truthy_json truthy_string truthy_option andb length String.length];
    try reflexivity.
  - destruct b; reflexivity.
  - destruct (negb _); reflexivity.
  - cbn [map fst]. apply Nat.ltb_lt. apply remove_dups_nonempty.
Qed.
